(** * tiny-stream: the WebSocket signaling hub

    A shallow embedding of [setupSignaling] and its helpers, and the
    properties of the room registry, the admission protocol, the relay
    router and the disconnect handler.

    Modelling conventions
    - A [WebSocket] object is identified by the order in which the server
      accepted it: the n-th [connection] event delivers socket [n].
    - [Map<string, Room>] and [Map<WebSocket, SocketMeta>] are finite maps.
      A JavaScript [Set] iterates in insertion order, and the handlers
      iterate over [room.receivers], so the set is a duplicate-free list
      kept in insertion order.
    - A message is a value of the declared type [SignalMessage]
      (src/types.ts): a mandatory [type] and optional string fields.
    - [ws.send] appends to the list of transmissions of the handler.
    - [socketMeta.get(ws)!] may be [undefined]; reading or writing a
      property of it raises a TypeError that nothing catches.  A handler
      therefore returns [None] when it raises.
    - [readyState] and [Math.random()] belong to the environment of an
      event.  The random draw is a rational in [0, 1) and the arithmetic
      of [generateRoomCode] is carried out exactly. *)

From Stdlib Require Import ZArith QArith Qround String Ascii Lia.
From stdpp Require Import base option list gmap strings.

Close Scope Q_scope.
Open Scope string_scope.
Open Scope list_scope.
Open Scope stdpp_scope.

(* ------------------------------------------------------------------ *)
(** ** Types *)

Definition WebSocket := nat.

(** [interface Room] *)
Record Room := mkRoom {
  sender : option WebSocket;
  receivers : list WebSocket;
  code : string
}.

(** [interface SocketMeta] *)
Record SocketMeta := mkMeta {
  role : option string;
  peerId : option string;
  roomName : option string
}.

(** [interface SignalMessage]; [m_rest] holds the negotiation payload
    ([sdp], [candidate] and any further key), which the hub never reads. *)
Record SignalMessage := mkMsg {
  m_type : string;
  m_from : option string;
  m_to : option string;
  m_peerId : option string;
  m_newRole : option string;
  m_room : option string;
  m_role : option string;
  m_code : option string;
  m_reason : option string;
  m_rest : list (string * string)
}.

Global Instance Room_eq_dec : EqDecision Room.
Proof. solve_decision. Defined.
Global Instance SocketMeta_eq_dec : EqDecision SocketMeta.
Proof. solve_decision. Defined.
Global Instance SignalMessage_eq_dec : EqDecision SignalMessage.
Proof. solve_decision. Defined.

(** The registry and the side table of [setupSignaling], and the number
    of sockets accepted so far. *)
Record Hub := mkHub {
  rooms : gmap string Room;
  socketMeta : gmap WebSocket SocketMeta;
  sockets : nat
}.

(** What a handler reads from outside the hub. *)
Record Env := mkEnv {
  OPEN : WebSocket → bool;      (* r.readyState === WebSocket.OPEN *)
  Math_random : Q
}.

(** One call of [ws.send(JSON.stringify(m))]. *)
Definition Send : Type := WebSocket * SignalMessage.

(** The outcome of a handler: the new hub and the transmissions in the
    order they were made, or [None] for an uncaught TypeError. *)
Definition Result : Type := option (Hub * list Send).

(* ------------------------------------------------------------------ *)
(** ** JavaScript primitives *)

(** Truthiness of a value of type [string | undefined]. *)
Definition truthy (v : option string) : bool :=
  match v with
  | Some s => negb (bool_decide (s = ""))
  | None => false
  end.

(** [Set.prototype.add] and [Set.prototype.delete]. *)
Definition Set_add (x : WebSocket) (s : list WebSocket) : list WebSocket :=
  if bool_decide (x ∈ s) then s else s ++ [x].

Definition Set_delete (x : WebSocket) (s : list WebSocket) : list WebSocket :=
  filter (λ y, y ≠ x) s.

(** [Number.prototype.toString] on a non-negative integer. *)
Definition digit (d : Z) : ascii := ascii_of_nat (48 + Z.to_nat d).

Fixpoint toString_aux (fuel : nat) (n : Z) (acc : string) : string :=
  match fuel with
  | O => acc
  | S fuel' =>
      let acc' := String (digit (n `mod` 10)) acc in
      if bool_decide (n `div` 10 = 0)%Z then acc'
      else toString_aux fuel' (n `div` 10) acc'
  end.

Definition toString (n : Z) : string :=
  toString_aux (S (Z.to_nat (Z.log2 n))) n "".

(* ------------------------------------------------------------------ *)
(** ** Helpers *)

(** [Math.floor(1000 + Math.random() * 9000).toString()] *)
Definition generateRoomCode (random : Q) : string :=
  toString (Qfloor (1000 + random * 9000)%Q).

(** Messages the hub originates. *)
Definition message (type : string) : SignalMessage :=
  mkMsg type None None None None None None None None [].

Definition join_denied (reason : string) : SignalMessage :=
  mkMsg "join-denied" None None None None None None None (Some reason) [].

Definition role_changed (newRole : string) : SignalMessage :=
  mkMsg "role-changed" None None None (Some newRole) None None None None [].

Definition room_code (c : string) : SignalMessage :=
  mkMsg "room-code" None None None None None None (Some c) None [].

Definition joined (r : string) : SignalMessage :=
  mkMsg "joined" None None None None None (Some r) None None [].

Definition receiver_left (p : option string) : SignalMessage :=
  mkMsg "receiver-left" None None p None None None None None [].

Definition sender_ready : SignalMessage := message "sender-ready".
Definition sender_left : SignalMessage := message "sender-left".

(** [{ ...msg, from: p }] *)
Definition with_from (msg : SignalMessage) (p : option string) : SignalMessage :=
  mkMsg (m_type msg) p (m_to msg) (m_peerId msg) (m_newRole msg)
        (m_room msg) (m_role msg) (m_code msg) (m_reason msg) (m_rest msg).

(** Field assignments. *)
Definition set_peerId (p : option string) (m : SocketMeta) : SocketMeta :=
  mkMeta (role m) p (roomName m).

Definition set_role (r : option string) (m : SocketMeta) : SocketMeta :=
  mkMeta r (peerId m) (roomName m).

Definition set_roomName (n : option string) (m : SocketMeta) : SocketMeta :=
  mkMeta (role m) (peerId m) n.

Definition set_sender (s : option WebSocket) (r : Room) : Room :=
  mkRoom s (receivers r) (code r).

Definition set_receivers (l : list WebSocket) (r : Room) : Room :=
  mkRoom (sender r) l (code r).

Definition set_rooms (rs : gmap string Room) (h : Hub) : Hub :=
  mkHub rs (socketMeta h) (sockets h).

Definition set_socketMeta (ms : gmap WebSocket SocketMeta) (h : Hub) : Hub :=
  mkHub (rooms h) ms (sockets h).

(* ------------------------------------------------------------------ *)
(** ** setupSignaling *)

(** [getRoom(id)]: the room, and the registry after the call. *)
Definition getRoom (random : Q) (id : string) (rs : gmap string Room)
  : Room * gmap string Room :=
  match rs !! id with
  | Some room => (room, rs)
  | None =>
      let room := mkRoom None [] (generateRoomCode random) in
      (room, <[id := room]> rs)
  end.

(** [getMeta(ws)] *)
Definition getMeta (h : Hub) (ws : WebSocket) : option SocketMeta :=
  socketMeta h !! ws.

(** [wss.on("connection", ...)] *)
Definition onConnection (h : Hub) : Result :=
  let ws := sockets h in
  Some (mkHub (rooms h) (<[ws := mkMeta None None None]> (socketMeta h))
              (S (sockets h)), []).

(** [msg.role === "receiver" && msg.code !== room.code] *)
Definition denied (msg : SignalMessage) (room : Room) : bool :=
  bool_decide (m_role msg = Some "receiver")
  && negb (bool_decide (m_code msg = Some (code room))).

(** The demotion of the previous sender inside the [join] branch: the
    side table, the receivers and the transmissions after it. *)
Definition demote (ws : WebSocket) (room : Room)
    (ms : gmap WebSocket SocketMeta)
  : option (gmap WebSocket SocketMeta * list WebSocket * list Send) :=
  match sender room with
  | Some old =>
      if bool_decide (old ≠ ws) then
        oldMeta ← ms !! old;
        Some (<[old := set_role (Some "receiver") oldMeta]> ms,
              Set_add old (receivers room),
              [(old, role_changed "receiver")])
      else Some (ms, receivers room, [])
  | None => Some (ms, receivers room, [])
  end.

(** The [type === "join"] branch. *)
Definition join (env : Env) (ws : WebSocket) (msg : SignalMessage) (h : Hub)
  : Result :=
  if negb (truthy (m_room msg)) || negb (truthy (m_role msg)) then Some (h, [])
  else
    let id := default "" (m_room msg) in
    let r := default "" (m_role msg) in
    let '(room, rs) := getRoom (Math_random env) id (rooms h) in
    if denied msg room then
      Some (set_rooms rs h,
            [(ws, join_denied (if truthy (m_code msg) then "Invalid room code"
                               else "Room code required"))])
    else
      meta ← getMeta h ws;
      let ms := <[ws := set_role (Some r) (set_roomName (Some id) meta)]>
                  (socketMeta h) in
      if bool_decide (r = "sender") then
        '(ms', rcv, notice) ← demote ws room ms;
        let room' := mkRoom (Some ws) rcv (code room) in
        Some (mkHub (<[id := room']> rs) ms' (sockets h),
              notice ++ [(ws, room_code (code room))]
                ++ map (λ x, (x, sender_ready)) rcv
                ++ [(ws, joined r)])
      else
        let room' := set_receivers (Set_add ws (receivers room)) room in
        Some (mkHub (<[id := room']> rs) ms (sockets h),
              match sender room with
              | Some _ => [(ws, sender_ready)]
              | None => []
              end ++ [(ws, joined r)]).

(** The unicast loop: the first receiver, in iteration order, whose
    registered identity is [to]. *)
Fixpoint unicast (ms : gmap WebSocket SocketMeta) (to : option string)
    (fwd : SignalMessage) (rcv : list WebSocket) : option (list Send) :=
  match rcv with
  | [] => Some []
  | x :: rcv' =>
      m ← ms !! x;
      if bool_decide (peerId m = to) then Some [(x, fwd)]
      else unicast ms to fwd rcv'
  end.

(** The [offer] / [answer] / [ice-candidate] branch. *)
Definition relay (env : Env) (ws : WebSocket) (msg : SignalMessage) (h : Hub)
  : Result :=
  meta ← getMeta h ws;
  if negb (truthy (roomName meta)) then Some (h, [])
  else
    match rooms h !! default "" (roomName meta) with
    | None => Some (h, [])
    | Some room =>
        let fwd := with_from msg (peerId meta) in
        if bool_decide (role meta = Some "sender") then
          if truthy (m_to msg) then
            out ← unicast (socketMeta h) (m_to msg) fwd (receivers room);
            Some (h, out)
          else
            Some (h, map (λ x, (x, fwd)) (filter (λ x, OPEN env x) (receivers room)))
        else
          match sender room with
          | Some s => Some (h, if OPEN env s then [(s, fwd)] else [])
          | None => Some (h, [])
          end
    end.

(** The payload of a [message] event: text that [JSON.parse] rejects, or
    a parsed message. *)
Inductive Raw :=
| Unparsable
| Json (msg : SignalMessage).

(** [ws.on("message", ...)] *)
Definition onMessage (env : Env) (ws : WebSocket) (raw : Raw) (h : Hub)
  : Result :=
  match raw with
  | Unparsable => Some (h, [])
  | Json msg =>
      if bool_decide (m_type msg = "register-id") then
        meta ← getMeta h ws;
        Some (set_socketMeta (<[ws := set_peerId (m_peerId msg) meta]> (socketMeta h)) h, [])
      else if bool_decide (m_type msg = "join") then join env ws msg h
      else if bool_decide (m_type msg = "offer")
              || bool_decide (m_type msg = "answer")
              || bool_decide (m_type msg = "ice-candidate")
      then relay env ws msg h
      else Some (h, [])
  end.

(** The room after the membership update of the [close] handler, and
    the notifications. *)
Definition leave (env : Env) (ws : WebSocket) (meta : SocketMeta) (room : Room)
  : Room * list Send :=
  if bool_decide (role meta = Some "sender")
     && bool_decide (sender room = Some ws)
  then
    (set_sender None room,
     map (λ x, (x, sender_left)) (filter (λ x, OPEN env x) (receivers room)))
  else
    (set_receivers (Set_delete ws (receivers room)) room,
     match sender room with
     | Some s => if OPEN env s then [(s, receiver_left (peerId meta))] else []
     | None => []
     end).

(** [if (!room.sender && room.receivers.size === 0) rooms.delete(roomName)] *)
Definition cleanup (id : string) (room : Room) (rs : gmap string Room)
  : gmap string Room :=
  if bool_decide (sender room = None)
     && bool_decide (length (receivers room) = 0%nat)
  then delete id rs
  else <[id := room]> rs.

(** [ws.on("close", ...)] *)
Definition onClose (env : Env) (ws : WebSocket) (h : Hub) : Result :=
  meta ← getMeta h ws;
  let ms := delete ws (socketMeta h) in
  if negb (truthy (roomName meta)) then Some (set_socketMeta ms h, [])
  else
    let id := default "" (roomName meta) in
    match rooms h !! id with
    | None => Some (set_socketMeta ms h, [])
    | Some room =>
        let '(room', out) := leave env ws meta room in
        Some (mkHub (cleanup id room' (rooms h)) ms (sockets h), out)
    end.

(* ------------------------------------------------------------------ *)
(** ** Event loop *)

Inductive Event :=
| Connection
| Message (ws : WebSocket) (raw : Raw)
| Close (ws : WebSocket).

Definition handle (env : Env) (ev : Event) (h : Hub) : Result :=
  match ev with
  | Connection => onConnection h
  | Message ws raw => onMessage env ws raw h
  | Close ws => onClose env ws h
  end.

(** [main]: an empty registry, and the empty side table of
    [setupSignaling]. *)
Definition init : Hub := mkHub ∅ ∅ 0.

(** The hub after a sequence of events, with everything it sent. *)
Fixpoint run (evs : list (Env * Event)) (h : Hub) : Result :=
  match evs with
  | [] => Some (h, [])
  | (env, ev) :: evs' =>
      '(h1, out1) ← handle env ev h;
      '(h2, out2) ← run evs' h1;
      Some (h2, out1 ++ out2)
  end.

(* ------------------------------------------------------------------ *)
(** ** Vocabulary of the statements *)

(** A field that is missing or the empty string: the values [!v] holds
    for. *)
Definition absent (v : option string) : Prop := v = None ∨ v = Some "".

(** The three message kinds of the relay branch. *)
Definition negotiation (msg : SignalMessage) : Prop :=
  m_type msg = "offer" ∨ m_type msg = "answer" ∨ m_type msg = "ice-candidate".

(** The peer identity a socket has registered, if the socket is live and
    has registered one. *)
Definition identity (h : Hub) (ws : WebSocket) : option string :=
  getMeta h ws ≫= peerId.

(** [a] is transmitted to [ws] at some point before [b] is. *)
Definition sent_before (ws : WebSocket) (a b : SignalMessage) (out : list Send)
  : Prop :=
  ∃ l1 l2 l3, out = l1 ++ (ws, a) :: l2 ++ (ws, b) :: l3.

(** The four ways through the [join] branch. *)
Inductive join_outcome (env : Env) (ws : WebSocket) (msg : SignalMessage)
    (h : Hub) : Hub → list Send → Prop :=
| join_ignored :
    absent (m_room msg) ∨ absent (m_role msg) →
    join_outcome env ws msg h h []
| join_refused n room rs :
    m_room msg = Some n → n ≠ "" →
    m_role msg = Some "receiver" →
    getRoom (Math_random env) n (rooms h) = (room, rs) →
    m_code msg ≠ Some (code room) →
    join_outcome env ws msg h (set_rooms rs h)
      [(ws, join_denied (if truthy (m_code msg) then "Invalid room code"
                         else "Room code required"))]
| join_as_sender n room rs meta ms' rcv notice :
    m_room msg = Some n → n ≠ "" →
    m_role msg = Some "sender" →
    getRoom (Math_random env) n (rooms h) = (room, rs) →
    getMeta h ws = Some meta →
    demote ws room
      (<[ws := mkMeta (Some "sender") (peerId meta) (Some n)]> (socketMeta h))
      = Some (ms', rcv, notice) →
    join_outcome env ws msg h
      (mkHub (<[n := mkRoom (Some ws) rcv (code room)]> (rooms h)) ms'
             (sockets h))
      (notice ++ [(ws, room_code (code room))]
         ++ map (λ x, (x, sender_ready)) rcv ++ [(ws, joined "sender")])
| join_as_receiver n r room rs meta :
    m_room msg = Some n → n ≠ "" →
    m_role msg = Some r → r ≠ "" → r ≠ "sender" →
    (r = "receiver" → m_code msg = Some (code room)) →
    getRoom (Math_random env) n (rooms h) = (room, rs) →
    getMeta h ws = Some meta →
    join_outcome env ws msg h
      (mkHub (<[n := mkRoom (sender room) (Set_add ws (receivers room))
                        (code room)]> (rooms h))
             (<[ws := mkMeta (Some r) (peerId meta) (Some n)]> (socketMeta h))
             (sockets h))
      (match sender room with
       | Some _ => [(ws, sender_ready)]
       | None => []
       end ++ [(ws, joined r)]).

(** *** Conditions on a sequence of events *)

(** The join passes both guards of the [join] branch and reaches the
    assignments to [meta.roomName] and [meta.role]. *)
Definition accepted (env : Env) (msg : SignalMessage) (h : Hub) : bool :=
  truthy (m_room msg) && truthy (m_role msg)
  && negb (denied msg
             (getRoom (Math_random env) (default "" (m_room msg)) (rooms h)).1).

(** The socket an event makes join a room, with its request. *)
Definition joiner (env : Env) (ev : Event) (h : Hub)
  : option (WebSocket * SignalMessage) :=
  match ev with
  | Message ws (Json msg) =>
      if bool_decide (m_type msg = "join") && accepted env msg h
      then Some (ws, msg) else None
  | _ => None
  end.

(** A socket that joins has no room yet: no session joins twice. *)
Definition first_join (env : Env) (ev : Event) (h : Hub) : bool :=
  match joiner env ev h with
  | Some (ws, _) =>
      match getMeta h ws with
      | Some meta => bool_decide (roomName meta = None)
      | None => true
      end
  | None => true
  end.

(** A socket that joins asks for one of the two roles of the protocol. *)
Definition known_role (env : Env) (ev : Event) (h : Hub) : bool :=
  match joiner env ev h with
  | Some (_, msg) =>
      bool_decide (m_role msg = Some "sender" ∨ m_role msg = Some "receiver")
  | None => true
  end.

Definition first_known_join (env : Env) (ev : Event) (h : Hub) : bool :=
  first_join env ev h && known_role env ev h.



(** [G] holds of every event of the sequence, in the hub the event
    finds. *)
Fixpoint always (G : Env → Event → Hub → bool) (evs : list (Env * Event))
    (h : Hub) : bool :=
  match evs with
  | [] => true
  | (env, ev) :: evs' =>
      G env ev h &&
      match handle env ev h with
      | Some (h1, _) => always G evs' h1
      | None => true
      end
  end.

(** *** Properties of a hub *)

Definition empty_room (room : Room) : Prop :=
  sender room = None ∧ receivers room = [].

Definition no_empty_room (h : Hub) : Prop :=
  ∀ n room, rooms h !! n = Some room → ¬ empty_room room.

(** A receiver join that names a room the registry does not hold. *)
Definition refused_unregistered (ev : Event) (h : Hub) (n : string) : Prop :=
  ∃ ws msg, ev = Message ws (Json msg) ∧ m_type msg = "join" ∧
    m_room msg = Some n ∧ m_role msg = Some "receiver" ∧ rooms h !! n = None.

Definition sender_not_receiver (h : Hub) : Prop :=
  ∀ n room s, rooms h !! n = Some room → sender room = Some s →
    s ∉ receivers room.

Definition session_agrees (h : Hub) : Prop :=
  ∀ ws meta n room, getMeta h ws = Some meta → rooms h !! n = Some room →
    (sender room = Some ws ↔ role meta = Some "sender" ∧ roomName meta = Some n) ∧
    (ws ∈ receivers room ↔ role meta = Some "receiver" ∧ roomName meta = Some n).

Definition roles_known (h : Hub) : Prop :=
  ∀ ws meta, getMeta h ws = Some meta → is_Some (roomName meta) →
    role meta = Some "sender" ∨ role meta = Some "receiver".

(** The side table and the registry describe the same memberships.  This
    is the invariant of the hub as long as no session joins twice. *)
Record consistent (h : Hub) : Prop := mkConsistent {
  live_bound : ∀ ws meta, getMeta h ws = Some meta → (ws < sockets h)%nat;
  names_truthy : ∀ ws meta, getMeta h ws = Some meta → roomName meta ≠ Some "";
  sender_meta : ∀ n room ws, rooms h !! n = Some room → sender room = Some ws →
    ∃ meta, getMeta h ws = Some meta ∧ roomName meta = Some n ∧
            role meta = Some "sender";
  receiver_meta : ∀ n room ws, rooms h !! n = Some room → ws ∈ receivers room →
    ∃ meta, getMeta h ws = Some meta ∧ roomName meta = Some n ∧
            role meta ≠ Some "sender";
  member_room : ∀ ws meta n, getMeta h ws = Some meta → roomName meta = Some n →
    ∃ room, rooms h !! n = Some room ∧
      (role meta = Some "sender" → sender room = Some ws) ∧
      (role meta ≠ Some "sender" → ws ∈ receivers room)
}.





(** The sockets that send a [join] message, one entry per message. *)
Definition join_senders (evs : list (Env * Event)) : list WebSocket :=
  omap (λ '(_, ev),
          match ev with
          | Message ws (Json msg) =>
              if bool_decide (m_type msg = "join") then Some ws else None
          | _ => None
          end) evs.

(* ------------------------------------------------------------------ *)
(** ** Scenarios *)

Definition join_msg (room r c : option string) : SignalMessage :=
  mkMsg "join" None None None None room r c None [].

Definition register_id (p : string) : SignalMessage :=
  mkMsg "register-id" None None (Some p) None None None None None [].

Definition offer (to : option string) : SignalMessage :=
  mkMsg "offer" None to None None None None None None [("sdp", "v=0")].

(** Every socket is open and [Math.random()] returns [random]. *)
Definition all_open (random : Q) : Env := mkEnv (λ _, true) random.

(** [Math.random()] returns 0.5, so a new room gets the code 5500. *)
Definition half : Env := all_open (1 # 2)%Q.

(** Socket 0 joins "home" as sender. *)
Definition first_sender : list (Env * Event) :=
  [(half, Connection);
   (half, Message 0 (Json (join_msg (Some "home") (Some "sender") None)))].

(** Socket 0 joins "home" as sender, socket 1 registers as "b" and joins
    as receiver with the code, socket 2 takes over as sender. *)
Definition takeover : list (Env * Event) :=
  first_sender ++
  [(half, Connection);
   (half, Message 1 (Json (register_id "b")));
   (half, Message 1 (Json (join_msg (Some "home") (Some "receiver") (Some "5500"))));
   (half, Connection);
   (half, Message 2 (Json (join_msg (Some "home") (Some "sender") None)))].

(** One socket joins room "a" and then room "b", as sender both times. *)
Definition double_join : list (Env * Event) :=
  [(half, Connection);
   (half, Message 0 (Json (join_msg (Some "a") (Some "sender") None)));
   (half, Message 0 (Json (join_msg (Some "b") (Some "sender") None)))].

(** A socket joins "home" with a role that is neither sender nor
    receiver. *)
Definition viewer : list (Env * Event) :=
  [(half, Connection);
   (half, Message 0 (Json (join_msg (Some "home") (Some "viewer") None)))].

(** A socket connects and asks for room "home" as receiver, without a
    code, while the registry is empty. *)
Definition stray_receiver : list (Env * Event) :=
  [(half, Connection);
   (half, Message 0 (Json (join_msg (Some "home") (Some "receiver") None)))].

(** The hub a scenario ends in and what was transmitted on the way. *)
Definition hub_after (evs : list (Env * Event)) : Hub :=
  match run evs init with
  | Some (h, _) => h
  | None => init
  end.

Definition sent_during (evs : list (Env * Event)) : list Send :=
  match run evs init with
  | Some (_, out) => out
  | None => []
  end.

(* ------------------------------------------------------------------ *)
(** ** Vocabulary of the further properties *)

(** [x] is the sender or one of the receivers of [room]. *)
Definition member (x : WebSocket) (room : Room) : Prop :=
  sender room = Some x ∨ x ∈ receivers room.

(** The socket an event comes from; a [connection] event delivers the
    next socket. *)
Definition socket_of (ev : Event) (h : Hub) : WebSocket :=
  match ev with
  | Connection => sockets h
  | Message ws _ => ws
  | Close ws => ws
  end.

(** The room an event concerns: the room a [join] names, and for every
    other message and for [close] the room of the session. *)
Definition room_of (ev : Event) (h : Hub) : option string :=
  match ev with
  | Connection => None
  | Message ws Unparsable => None
  | Message ws (Json msg) =>
      if bool_decide (m_type msg = "join") then m_room msg
      else getMeta h ws ≫= roomName
  | Close ws => getMeta h ws ≫= roomName
  end.

(** The events whose handlers write to the registry. *)
Definition membership_event (ev : Event) : bool :=
  match ev with
  | Message _ (Json msg) => bool_decide (m_type msg = "join")
  | Close _ => true
  | _ => false
  end.


(** [{ ...msg, code: c }] *)
Definition with_code (msg : SignalMessage) (c : option string) : SignalMessage :=
  mkMsg (m_type msg) (m_from msg) (m_to msg) (m_peerId msg) (m_newRole msg)
        (m_room msg) (m_role msg) c (m_reason msg) (m_rest msg).

(** No receiver is listed twice: the list is a set. *)
Definition receivers_distinct (h : Hub) : Prop :=
  ∀ n room, rooms h !! n = Some room → NoDup (receivers room).

(** The unguarded condition on events. *)
Definition any_event (env : Env) (ev : Event) (h : Hub) : bool := true.

(** Socket 0 joins "a" and then "b" as sender and disconnects; socket 1
    connects. *)
Definition departed_sender : list (Env * Event) :=
  double_join ++ [(half, Close 0); (half, Connection)].

(* ------------------------------------------------------------------ *)
(** ** Network addresses and the startup banner *)

(** [os.NetworkInterfaceInfo]: the fields [getLocalIPs] reads. *)
Record NetworkInterfaceInfo := mkInfo {
  address : string;
  family : string;
  internal : bool
}.

(** [getLocalIPs], applied to [Object.values(os.networkInterfaces())]: an
    interface may be [undefined]; [ips.push] appends. *)
Definition getLocalIPs (nets : list (option (list NetworkInterfaceInfo)))
  : list string :=
  fold_left
    (λ ips iface,
       match iface with
       | None => ips
       | Some cfgs =>
           fold_left
             (λ ips cfg,
                if bool_decide (family cfg = "IPv4") && negb (internal cfg)
                then ips ++ [address cfg] else ips)
             cfgs ips
       end)
    nets [].

(** [getNetworkUrl(port)], with the module constant [localIPs] and the
    text the template renders [port] as.  Reading past the end of an
    array gives [undefined]. *)
Definition getNetworkUrl (localIPs : list string) (port : string) : string :=
  if bool_decide (0 < length localIPs)%nat
  then "https://" +:+ default "undefined" (localIPs !! 0%nat) +:+ ":" +:+ port
  else "https://localhost:" +:+ port.

(** A configuration [getLocalIPs] keeps. *)
Definition external_ipv4 (cfg : NetworkInterfaceInfo) : Prop :=
  family cfg = "IPv4" ∧ internal cfg = false.

Global Instance external_ipv4_dec cfg : Decision (external_ipv4 cfg).
Proof. unfold external_ipv4. apply _. Defined.

(** The configurations of all interfaces, in iteration order. *)
Definition configurations (nets : list (option (list NetworkInterfaceInfo)))
  : list NetworkInterfaceInfo :=
  mjoin (omap id nets).

(** A JavaScript string as its UTF-16 code units.  A [string] stands for
    the JavaScript string whose code units are its characters. *)
Definition jsstring : Type := list N.

Definition units (s : string) : jsstring :=
  N_of_ascii <$> list_ascii_of_string s.

(** [s.length] *)
Definition jslength (s : jsstring) : Z := Z.of_nat (length s).

(** [String.prototype.repeat]: a RangeError for a negative count. *)
Definition js_repeat (s : jsstring) (count : Z) : option jsstring :=
  if bool_decide (count < 0)%Z then None
  else Some (mjoin (replicate (Z.to_nat count) s)).

(** [Math.max(a, ...rest)] *)
Definition Math_max (a : Z) (rest : list Z) : Z := fold_left Z.max rest a.

(** The box-drawing characters of the banner. *)
Definition box_h : N := 9552.    (* U+2550 *)
Definition box_v : N := 9553.    (* U+2551 *)
Definition box_tl : N := 9556.   (* U+2554 *)
Definition box_tr : N := 9559.   (* U+2557 *)
Definition box_bl : N := 9562.   (* U+255A *)
Definition box_br : N := 9565.   (* U+255D *)
Definition box_ml : N := 9568.   (* U+2560 *)
Definition box_mr : N := 9571.   (* U+2563 *)
Definition space : N := 32.

(** The [urls] array of [printBanner]. *)
Definition banner_urls (localIPs : list string) (port : string)
  : list (string * string) :=
  fold_left
    (λ urls addr, urls ++ [("Network", "https://" +:+ addr +:+ ":" +:+ port)])
    localIPs [("Local", "https://localhost:" +:+ port)].

Definition contentWidth (urls : list (string * string)) : Z :=
  (Math_max (jslength (units "tiny-stream is running!"))
     (map (λ '(label, url), jslength (units (label +:+ ":   " +:+ url))) urls)
   + 4)%Z.

(** [pad] *)
Definition pad (width : Z) (str : jsstring) : option jsstring :=
  spaces ← js_repeat [space] (Z.max 0 (width - jslength str));
  Some (str ++ spaces).

(** The lines [printBanner] passes to [console.log] up to the bottom of
    the box, in order; [None] if a [repeat] raises. *)
Definition printBanner_box (localIPs : list string) (port : string)
  : option (list jsstring) :=
  let urls := banner_urls localIPs port in
  let width := contentWidth urls in
  line ← js_repeat [box_h] (width + 2);
  title ← pad width (units "  tiny-stream is running!");
  rows ← mapM
    (λ '(label, url),
       let prefix := if bool_decide (label = "Local") then "Local:  "
                     else "Network:" in
       padded ← pad width (units (" " +:+ prefix +:+ " " +:+ url));
       Some ([space; space; box_v; space] ++ padded ++ [space; box_v]))
    urls;
  Some ([ [];
          [space; space; box_tl] ++ line ++ [box_tr];
          [space; space; box_v; space] ++ title ++ [space; box_v];
          [space; space; box_ml] ++ line ++ [box_mr] ]
        ++ rows
        ++ [ [space; space; box_bl] ++ line ++ [box_br] ]).

(* ------------------------------------------------------------------ *)
(** ** The self-signed certificate *)

(** [path.join(a, b)] for a normalized directory [a] and a file name [b],
    with the POSIX separator. *)
Definition path_join (a b : string) : string := a +:+ "/" +:+ b.

(** [CERT_DIR], [CERT_PATH] and [KEY_PATH], from [__dirname]. *)
Definition CERT_DIR (dirname : string) : string := path_join dirname ".certs".
Definition CERT_PATH (dirname : string) : string :=
  path_join (CERT_DIR dirname) "cert.pem".
Definition KEY_PATH (dirname : string) : string :=
  path_join (CERT_DIR dirname) "key.pem".

(** The entries of [subjectAltName]: [{type: 2, value}] and
    [{type: 7, ip}]. *)
Inductive AltName :=
| DnsName (value : string)
| IpAddress (ip : string).

(** What [ensureCerts] reads of the result of [selfsigned.generate]. *)
Record Pems := mkPems {
  pems_cert : string;
  pems_private : string
}.

(** The files of the disk, by path.  [fs.existsSync] is membership,
    [fs.readFileSync] the lookup, [fs.writeFileSync] the update;
    [fs.mkdirSync] creates no file. *)
Definition existsSync (disk : gmap string string) (p : string) : bool :=
  bool_decide (is_Some (disk !! p)).

(** [ensureCerts]: the disk afterwards and the pair [{cert, key}].
    [generate] answers [selfsigned.generate(attrs, opts)] from the
    [altNames] of [opts], the only part that varies.  [None] is the
    error of [readFileSync] on a missing file. *)
Definition ensureCerts (dirname : string) (generate : list AltName → Pems)
    (localIPs : list string) (disk : gmap string string)
  : option (gmap string string * (string * string)) :=
  if existsSync disk (CERT_PATH dirname) && existsSync disk (KEY_PATH dirname)
  then
    cert ← disk !! CERT_PATH dirname;
    key ← disk !! KEY_PATH dirname;
    Some (disk, (cert, key))
  else
    let pems :=
      generate (DnsName "localhost" :: IpAddress "127.0.0.1"
                :: map IpAddress localIPs) in
    Some (<[KEY_PATH dirname := pems_private pems]>
            (<[CERT_PATH dirname := pems_cert pems]> disk),
          (pems_cert pems, pems_private pems)).

(* ------------------------------------------------------------------ *)
(** ** Basic facts *)

Lemma truthy_false v : truthy v = false ↔ absent v.
Proof.
  unfold truthy, absent. destruct v as [s|].
  - case_bool_decide as E; cbn; split.
    + intros _. right. by rewrite E.
    + done.
    + done.
    + intros [?|[= ?]]; done.
  - split; [by left|done].
Qed.

Lemma truthy_true v : truthy v = true ↔ ∃ s, v = Some s ∧ s ≠ "".
Proof.
  unfold truthy. destruct v as [s|].
  - case_bool_decide as E; cbn; split.
    + done.
    + intros (s' & [= <-] & ?). done.
    + intros _. by exists s.
    + done.
  - split; [done|]. by intros (s & ? & _).
Qed.

(** A field known to be a non-empty string passes the guard [!field]. *)
Ltac pass_guard field :=
  assert (truthy field = true) as -> by (apply truthy_true; eauto).

Lemma Set_add_elem x y s : y ∈ Set_add x s ↔ y = x ∨ y ∈ s.
Proof.
  unfold Set_add. case_bool_decide as E.
  - split; [by right|]. by intros [->|?].
  - rewrite elem_of_app, list_elem_of_singleton. tauto.
Qed.

Lemma Set_delete_elem x y s : y ∈ Set_delete x s ↔ y ∈ s ∧ y ≠ x.
Proof. unfold Set_delete. rewrite list_elem_of_filter. tauto. Qed.

Lemma Set_add_NoDup x s : NoDup s → NoDup (Set_add x s).
Proof.
  intros Hs. unfold Set_add. case_bool_decide; [done|].
  apply NoDup_app. split_and!; [done| |apply NoDup_singleton].
  intros y Hy ->%list_elem_of_singleton. done.
Qed.

Lemma Set_delete_NoDup x s : NoDup s → NoDup (Set_delete x s).
Proof. apply NoDup_filter. Qed.

Lemma Set_add_not_nil x s : Set_add x s ≠ [].
Proof.
  intros E. assert (x ∈ Set_add x s) as H by (apply Set_add_elem; by left).
  rewrite E in H. by apply elem_of_nil in H.
Qed.

(** What [getRoom] returns, by cases on the registry. *)
Lemma getRoom_known random id rs room :
  rs !! id = Some room → getRoom random id rs = (room, rs).
Proof. intros H. unfold getRoom. by rewrite H. Qed.

Lemma getRoom_insert random id rs room rs' room' :
  getRoom random id rs = (room, rs') → <[id := room']> rs' = <[id := room']> rs.
Proof.
  unfold getRoom. destruct (rs !! id) eqn:E; intros [= <- <-]; [done|].
  apply insert_insert_eq.
Qed.

Lemma getRoom_cases random n rs room rs' :
  getRoom random n rs = (room, rs') →
  (rs !! n = Some room ∧ rs' = rs)
  ∨ (rs !! n = None ∧ room = mkRoom None [] (generateRoomCode random) ∧
     rs' = <[n := room]> rs).
Proof.
  unfold getRoom. destruct (rs !! n) eqn:E; intros [= <- <-]; [by left|by right].
Qed.

Lemma getRoom_member random n rs room rs' x :
  getRoom random n rs = (room, rs') →
  sender room = Some x ∨ x ∈ receivers room → rs !! n = Some room.
Proof.
  intros [[? _]|(_ & -> & _)]%getRoom_cases; [done|]. cbn.
  intros [?|?%elem_of_nil]; done.
Qed.

Lemma demote_cases ws room ms ms' rcv notice :
  demote ws room ms = Some (ms', rcv, notice) →
  (∃ old oldMeta,
      sender room = Some old ∧ old ≠ ws ∧ ms !! old = Some oldMeta ∧
      ms' = <[old := set_role (Some "receiver") oldMeta]> ms ∧
      rcv = Set_add old (receivers room) ∧
      notice = [(old, role_changed "receiver")])
  ∨ ((sender room = None ∨ sender room = Some ws) ∧
     ms' = ms ∧ rcv = receivers room ∧ notice = []).
Proof.
  unfold demote. destruct (sender room) as [old|] eqn:Hs.
  - case_bool_decide as Hne.
    + destruct (ms !! old) as [mo|] eqn:Hmo; [|done].
      cbn. intros [= <- <- <-]. left. by exists old, mo.
    + intros [= <- <- <-]. right. split_and!; try done.
      right. f_equal. by destruct (decide (old = ws)).
  - intros [= <- <- <-]. right. by split_and!; [left|..].
Qed.

(** Every run of the [join] branch that does not raise takes one of the
    four ways of [join_outcome]. *)
Lemma join_cases env ws msg h h' out :
  join env ws msg h = Some (h', out) → join_outcome env ws msg h h' out.
Proof.
  unfold join.
  destruct (truthy (m_room msg)) eqn:Hroom; cbn [negb orb].
  2:{ intros [= <- <-]. constructor. left. by apply truthy_false. }
  destruct (truthy (m_role msg)) eqn:Hrole; cbn [negb orb].
  2:{ intros [= <- <-]. constructor. right. by apply truthy_false. }
  apply truthy_true in Hroom as (n & Hn & Hn').
  apply truthy_true in Hrole as (r & Hr & Hr').
  rewrite Hn, Hr. simpl (default _ _).
  destruct (getRoom (Math_random env) n (rooms h)) as [room rs] eqn:Hget.
  unfold denied. rewrite Hr.
  destruct (decide (r = "receiver")) as [->|Hnr].
  - rewrite bool_decide_eq_true_2 by done. cbn [andb].
    case_bool_decide as Hc; cbn [negb].
    + destruct (getMeta h ws) as [meta|] eqn:Hmeta; [|done]. cbn.
      rewrite (getRoom_insert _ _ _ _ _ _ Hget).
      intros [= <- <-].
      by eapply (join_as_receiver _ _ _ _ n "receiver" room rs meta).
    + intros [= <- <-]. by eapply join_refused.
  - rewrite (bool_decide_eq_false_2 (Some r = Some "receiver")) by congruence.
    cbn [andb].
    destruct (getMeta h ws) as [meta|] eqn:Hmeta; [|done]. cbn [mbind option_bind].
    case_bool_decide as Hs.
    + subst r. unfold set_role, set_roomName. cbn [peerId role roomName].
      destruct (demote _ _ _) as [[[ms' rcv] notice]|] eqn:Hd; [|done]. cbn.
      rewrite (getRoom_insert _ _ _ _ _ _ Hget).
      intros [= <- <-]. by eapply join_as_sender.
    + rewrite (getRoom_insert _ _ _ _ _ _ Hget).
      intros [= <- <-].
      by eapply (join_as_receiver _ _ _ _ n r room rs meta).
Qed.

Lemma onMessage_join env ws msg h :
  m_type msg = "join" → handle env (Message ws (Json msg)) h = join env ws msg h.
Proof. intros Ht. cbn. by rewrite Ht. Qed.

Lemma onMessage_relay env ws msg h :
  negotiation msg → handle env (Message ws (Json msg)) h = relay env ws msg h.
Proof.
  intros Ht. cbn. 
  destruct Ht as [Ht|[Ht|Ht]]; rewrite Ht; reflexivity.
Qed.

Lemma relay_same env ws msg h h' out :
  relay env ws msg h = Some (h', out) → h' = h.
Proof.
  unfold relay. destruct (getMeta h ws) as [meta|]; [|done]. cbn [mbind option_bind].
  destruct (negb _); [by intros [= <- _]|].
  destruct (rooms h !! _) as [room|]; [|by intros [= <- _]].
  destruct (bool_decide _).
  - destruct (truthy _); [|by intros [= <- _]].
    destruct (unicast _ _ _ _); [|done]. by intros [= <- _].
  - destruct (sender room); by intros [= <- _].
Qed.

Lemma set_rooms_same h : set_rooms (rooms h) h = h.
Proof. by destruct h. Qed.

Lemma leave_sender env ws meta room :
  role meta = Some "sender" → sender room = Some ws →
  leave env ws meta room =
    (set_sender None room,
     map (λ x, (x, sender_left)) (filter (λ x, OPEN env x) (receivers room))).
Proof.
  intros Hr Hs. unfold leave.
  by rewrite !bool_decide_eq_true_2.
Qed.

Lemma leave_receiver env ws meta room :
  ¬ (role meta = Some "sender" ∧ sender room = Some ws) →
  leave env ws meta room =
    (set_receivers (Set_delete ws (receivers room)) room,
     match sender room with
     | Some s => if OPEN env s then [(s, receiver_left (peerId meta))] else []
     | None => []
     end).
Proof.
  intros Hn. unfold leave.
  destruct (bool_decide (role meta = Some "sender")) eqn:E1;
    destruct (bool_decide (sender room = Some ws)) eqn:E2; try done.
  apply bool_decide_eq_true in E1, E2. by destruct Hn.
Qed.

(** How one event changes the entry of a name in the registry. *)
Lemma leave_code env ws meta room : code (leave env ws meta room).1 = code room.
Proof. unfold leave. by destruct (_ && _). Qed.

Lemma cleanup_other n room rs k : k ≠ n → cleanup n room rs !! k = rs !! k.
Proof.
  intros Hk. unfold cleanup.
  destruct (_ && _); [by apply lookup_delete_ne | by apply lookup_insert_ne].
Qed.

Lemma cleanup_same n room rs :
  cleanup n room rs !! n = Some room ∧ ¬ (sender room = None ∧ receivers room = [])
  ∨ cleanup n room rs !! n = None ∧ sender room = None ∧ receivers room = [].
Proof.
  unfold cleanup.
  destruct (bool_decide (sender room = None)) eqn:E1;
    destruct (bool_decide (length (receivers room) = 0%nat)) eqn:E2; cbn [andb].
  - right. apply bool_decide_eq_true in E1, E2.
    split_and!; [apply lookup_delete_eq|done|by apply length_zero_iff_nil].
  - left. apply bool_decide_eq_false in E2. split; [apply lookup_insert_eq|].
    intros [_ E]. by rewrite E in E2.
  - left. apply bool_decide_eq_false in E1. split; [apply lookup_insert_eq|].
    by intros [E _].
  - left. apply bool_decide_eq_false in E1. split; [apply lookup_insert_eq|].
    by intros [E _].
Qed.

(* ------------------------------------------------------------------ *)
(** ** Admission controller *)

(** C10.  A join message whose [room] or [role] is missing or the empty
    string gets no reply at all and leaves the hub as it was: registry,
    rooms and sessions are unchanged, and no room is created. *)
Theorem join_missing_field_ignored env ws msg h :
  m_type msg = "join" →
  absent (m_room msg) ∨ absent (m_role msg) →
  handle env (Message ws (Json msg)) h = Some (h, []).
Proof.
  intros Ht Habs. cbn. rewrite Ht. cbn.
  unfold join.
  destruct Habs as [Ha|Ha]; apply truthy_false in Ha; rewrite Ha; cbn; [done|].
  by rewrite orb_true_r.
Qed.

Lemma join_missing_field_ignored_witness :
  handle half
    (Message 0 (Json (join_msg None (Some "receiver") (Some "1234")))) init
  = Some (init, []).
Proof.
  apply join_missing_field_ignored; [reflexivity | left; left; reflexivity].
Defined.

(** What a refusal does when the room is registered: the reply tells a
    missing code from a wrong one, and the hub is unchanged. *)
Lemma refused_join_known_room env ws msg h n room :
  m_type msg = "join" → m_room msg = Some n → n ≠ "" →
  m_role msg = Some "receiver" →
  rooms h !! n = Some room → m_code msg ≠ Some (code room) →
  handle env (Message ws (Json msg)) h =
    Some (h, [(ws, join_denied (if truthy (m_code msg) then "Invalid room code"
                                else "Room code required"))]).
Proof.
  intros Ht Hn Hn' Hr Hroom Hcode.
  rewrite (onMessage_join _ _ _ _ Ht). unfold join.
  pass_guard (m_room msg). pass_guard (m_role msg).
  cbn [negb orb]. rewrite Hn. simpl (default _ _).
  rewrite (getRoom_known _ _ _ _ Hroom). unfold denied.
  rewrite bool_decide_eq_true_2 by done.
  rewrite bool_decide_eq_false_2 by done. cbn [andb negb].
  by rewrite set_rooms_same.
Qed.

(** What a refusal does in general: no session changes and no registered
    room changes. *)
Lemma refused_join_keeps_sessions env ws msg h h' reason :
  handle env (Message ws (Json msg)) h = Some (h', [(ws, join_denied reason)]) →
  m_type msg = "join" →
  socketMeta h' = socketMeta h ∧
  ∀ n room, rooms h !! n = Some room → rooms h' !! n = Some room.
Proof.
  intros Hstep Ht. rewrite (onMessage_join _ _ _ _ Ht) in Hstep.
  apply join_cases in Hstep.
  remember [(ws, join_denied reason)] as o eqn:Ho.
  destruct Hstep as [ |k room rs Hn Hn' Hr Hget Hcode
                  |k room rs meta ms' rcv notice Hn Hn' Hr Hget Hm Hd
                  |k r room rs meta Hn Hn' Hr Hr' Hrs Hcode Hget Hm].
  - done.
  - split; [done|]. cbn. intros n room0 Hroom0.
    apply getRoom_cases in Hget as [[_ ->]|(Hfresh & _ & ->)]; [done|].
    rewrite lookup_insert_ne; [done|congruence].
  - apply (f_equal last) in Ho. rewrite !app_assoc, last_snoc in Ho. done.
  - apply (f_equal last) in Ho. rewrite last_snoc in Ho. done.
Qed.

(** C1, evaluated where it fails.  The registry is empty and socket 0 is
    connected.  It asks to join "home" as receiver and supplies no code.
    The hub answers join-denied with the reason "Room code required",
    as the claim says, but the registry, which did not hold "home"
    before, holds it afterwards, as a room without sender and without
    receivers: [getRoom] has registered the room before the code was
    compared, and the refusal returns without removing it. *)
Theorem refused_join_registers_room :
  ∃ h h',
    run [(half, Connection)] init = Some (h, []) ∧
    handle half (Message 0 (Json (join_msg (Some "home") (Some "receiver") None))) h
      = Some (h', [(0%nat, join_denied "Room code required")]) ∧
    rooms h !! "home" = None ∧
    rooms h' !! "home" = Some (mkRoom None [] "5500").
Proof. eexists _, _. split_and!; vm_compute; reflexivity. Qed.



(** C6, as the code has it.  On a successful join the confirmation is the
    last message, after the follow-up.  A session that joins as sender
    is sent room-code with the access code of the room and, later in
    the same operation, joined with role sender, which is the last
    transmission of the operation.  A session that joins as receiver,
    with the right code, a room that has a sender is sent sender-ready
    and then joined, and nothing else is transmitted. *)
Theorem join_confirmation_last env ws msg h n meta :
  m_type msg = "join" → m_room msg = Some n → n ≠ "" →
  getMeta h ws = Some meta →
  (∀ room old, rooms h !! n = Some room → sender room = Some old →
     is_Some (getMeta h old)) →
  (m_role msg = Some "sender" →
     ∃ h' out room',
       handle env (Message ws (Json msg)) h = Some (h', out) ∧
       rooms h' !! n = Some room' ∧
       sent_before ws (room_code (code room')) (joined "sender") out ∧
       last out = Some (ws, joined "sender")) ∧
  (m_role msg = Some "receiver" →
     ∀ room s, rooms h !! n = Some room → sender room = Some s →
       m_code msg = Some (code room) →
       ∃ h', handle env (Message ws (Json msg)) h
             = Some (h', [(ws, sender_ready); (ws, joined "receiver")])).
Proof.
  intros Ht Hn Hn' Hm Hlive.
  rewrite (onMessage_join _ _ _ _ Ht). unfold join.
  pass_guard (m_room msg).
  rewrite Hn. simpl (default _ _).
  split.
  - intros Hr.
    pass_guard (m_role msg).
    cbn [negb orb]. rewrite Hr. simpl (default _ _).
    destruct (getRoom (Math_random env) n (rooms h)) as [room rs] eqn:Hget.
    unfold denied. rewrite Hr.
    rewrite (bool_decide_eq_false_2 (Some "sender" = Some "receiver")) by done.
    cbn [andb]. rewrite Hm. cbn [mbind option_bind].
    rewrite bool_decide_eq_true_2 by done.
    assert (∃ ms' rcv notice, demote ws room
       (<[ws:=set_role (Some "sender") (set_roomName (Some n) meta)]> (socketMeta h))
       = Some (ms', rcv, notice)) as (ms' & rcv & notice & ->).
    { unfold demote. destruct (sender room) as [old|] eqn:Hs; [|by eexists _, _, _].
      case_bool_decide as Hne; [|by eexists _, _, _].
      rewrite lookup_insert_ne by done.
      destruct (Hlive room old) as [mo Hmo]; [|done|].
      - unfold getRoom in Hget. destruct (rooms h !! n); [congruence|].
        injection Hget as <- <-. done.
      - unfold getMeta in Hmo. rewrite Hmo. by eexists _, _, _. }
    cbn [mbind option_bind].
    eexists _, _, _. split; [reflexivity|]. cbn [rooms].
    split; [apply lookup_insert_eq|]. cbn [code]. split.
    + exists notice, (map (λ x, (x, sender_ready)) rcv), []. done.
    + rewrite !app_assoc. apply last_snoc.
  - intros Hr room s Hroom Hs Hc.
    pass_guard (m_role msg).
    cbn [negb orb]. rewrite Hr. simpl (default _ _).
    rewrite (getRoom_known _ _ _ _ Hroom).
    unfold denied. rewrite Hr, Hc.
    rewrite !bool_decide_eq_true_2 by done. cbn [andb negb].
    rewrite Hm. cbn [mbind option_bind].
    rewrite bool_decide_eq_false_2 by done.
    rewrite Hs. by eexists.
Qed.

Lemma join_confirmation_last_witness :
  ∃ h' out room',
    handle half (Message 0 (Json (join_msg (Some "home") (Some "sender") None)))
      (hub_after [(half, Connection)]) = Some (h', out) ∧
    rooms h' !! "home" = Some room' ∧
    sent_before 0 (room_code (code room')) (joined "sender") out ∧
    last out = Some (0%nat, joined "sender").
Proof.
  apply (join_confirmation_last half 0%nat
           (join_msg (Some "home") (Some "sender") None)
           (hub_after [(half, Connection)]) "home" (mkMeta None None None));
    try reflexivity.
  - discriminate.
  - intros room old Hroom. vm_compute in Hroom. discriminate.
Defined.

(** C6 fails as stated.  When socket 0 joins "home" as sender, the hub
    transmits room-code and then joined: the confirmation is not sent
    before the room code. *)
Lemma confirmation_not_first :
  ∃ h, run first_sender init
       = Some (h, [(0, room_code "5500"); (0, joined "sender")]) ∧
       ¬ sent_before 0 (joined "sender") (room_code "5500")
           [(0, room_code "5500"); (0, joined "sender")].
Proof.
  eexists. split; [vm_compute; reflexivity|].
  intros (l1 & l2 & l3 & H). unfold joined, room_code in H.
  destruct l1 as [|a [|b l1]]; [done| |].
  - destruct l2; done.
  - destruct l1; done.
Qed.

(* ------------------------------------------------------------------ *)
(** ** Relay router *)

Lemma unicast_at_most_one ms to fwd rcv out :
  unicast ms to fwd rcv = Some out →
  out = [] ∨ ∃ x m, x ∈ rcv ∧ ms !! x = Some m ∧ peerId m = to ∧ out = [(x, fwd)].
Proof.
  revert out. induction rcv as [|x rcv IH]; intros out; cbn.
  - intros [= <-]. by left.
  - destruct (ms !! x) as [m|] eqn:Hm; [|done]. cbn.
    case_bool_decide as Hp.
    + intros [= <-]. right. exists x, m. split_and!; try done. apply list_elem_of_here.
    + intros H. destruct (IH _ H) as [->|(y & m' & Hy & ?)]; [by left|].
      right. exists y, m'. split; [by apply list_elem_of_further|done].
Qed.




(* ------------------------------------------------------------------ *)
(** ** Disconnect handler *)



(* ------------------------------------------------------------------ *)
(** ** Room registry *)

(** Invariants: what every guarded step preserves holds after a run. *)
Lemma always_run (G : Env → Event → Hub → bool) (P : Hub → Prop) :
  (∀ env ev h h' out, P h → G env ev h = true →
     handle env ev h = Some (h', out) → P h') →
  ∀ evs h h' out, P h → always G evs h = true →
    run evs h = Some (h', out) → P h'.
Proof.
  intros Hstep evs. induction evs as [|[env ev] evs IH]; intros h h' out HP Hg; cbn.
  - by intros [= <- _].
  - cbn in Hg. apply andb_true_iff in Hg as [Hg1 Hg2].
    destruct (handle env ev h) as [[h1 out1]|] eqn:Hh; [|done]. cbn.
    destruct (run evs h1) as [[h2 out2]|] eqn:Hrun; [|done]. cbn.
    intros [= <- _]. eapply IH; [|done..]. by eapply Hstep.
Qed.

(** How one event changes the entry of a name in the registry: the room
    was there and keeps its code, and is unchanged if it is empty; or
    the room is new, has a freshly generated code, and is empty only
    after a refused receiver join. *)
Lemma step_rooms env ev h h' out n room' :
  handle env ev h = Some (h', out) → rooms h' !! n = Some room' →
  (∃ room, rooms h !! n = Some room ∧ code room' = code room ∧
           (empty_room room' → room' = room))
  ∨ (rooms h !! n = None ∧ code room' = generateRoomCode (Math_random env) ∧
     (empty_room room' → refused_unregistered ev h n)).
Proof.
  assert (Hsame : rooms h !! n = Some room' →
    (∃ room, rooms h !! n = Some room ∧ code room' = code room ∧
             (empty_room room' → room' = room))
    ∨ (rooms h !! n = None ∧ code room' = generateRoomCode (Math_random env) ∧
       (empty_room room' → refused_unregistered ev h n))).
  { intros H. left. by exists room'. }
  destruct ev as [|ws [|msg]|ws]; cbn [handle].
  - intros [= <- _]. exact Hsame.
  - intros [= <- _]. exact Hsame.
  - unfold onMessage. case_bool_decide as Hreg.
    { destruct (getMeta h ws) as [meta|]; [|done]. cbn. intros [= <- _]. exact Hsame. }
    case_bool_decide as Hjoin.
    2:{ destruct (_ || _); [|intros [= <- _]; exact Hsame].
        intros ->%relay_same. exact Hsame. }
    intros Hj%join_cases.
    destruct Hj as [ |k room rs Hn Hn' Hr Hget Hcode
                    |k room rs meta ms' rcv notice Hn Hn' Hr Hget Hm Hd
                    |k r room rs meta Hn Hn' Hr Hr' Hrs Hcode Hget Hm];
      cbn [rooms set_rooms].
    + exact Hsame.
    + apply getRoom_cases in Hget as [[_ ->]|(Hfresh & -> & ->)]; [exact Hsame|].
      rewrite lookup_insert. case_decide as E; [|exact Hsame].
      subst k. intros [= <-]. right. split_and!; [done..|].
      intros _. by exists ws, msg.
    + rewrite lookup_insert. case_decide as E; [|exact Hsame].
      subst k. intros [= <-]. cbn [code].
      apply getRoom_cases in Hget as [[Hroom ->]|(Hfresh & -> & ->)].
      * left. exists room. split_and!; [done..|]. by intros [? _].
      * right. split_and!; [done..|]. by intros [? _].
    + rewrite lookup_insert. case_decide as E; [|exact Hsame].
      subst k. intros [= <-]. cbn [code].
      apply getRoom_cases in Hget as [[Hroom ->]|(Hfresh & -> & ->)].
      * left. exists room. split_and!; [done..|].
        intros [_ Hx]. cbn in Hx. by apply Set_add_not_nil in Hx.
      * right. split_and!; [done..|].
        intros [_ Hx]. cbn in Hx. by apply Set_add_not_nil in Hx.
  - unfold onClose. destruct (getMeta h ws) as [meta|]; [|done].
    cbn [mbind option_bind].
    destruct (negb _); [intros [= <- _]; exact Hsame|].
    destruct (rooms h !! default "" (roomName meta)) as [room|] eqn:Hroom;
      [|intros [= <- _]; exact Hsame].
    pose proof (leave_code env ws meta room) as Hcode.
    destruct (leave env ws meta room) as [room1 out1]. cbn [fst] in Hcode.
    intros [= <- _]. cbn [rooms].
    destruct (decide (n = default "" (roomName meta))) as [->|Hne].
    + destruct (cleanup_same (default "" (roomName meta)) room1 (rooms h))
        as [[Hl Hnon]|[Hl _]]; [|congruence].
      rewrite Hl. intros [= <-]. left. exists room. split_and!; [done..|].
      intros [? ?]. by destruct Hnon.
    + rewrite cleanup_other by done. exact Hsame.
Qed.

Lemma no_empty_room_init : no_empty_room init.
Proof. intros n room. cbn. by rewrite lookup_empty. Qed.

(** An empty room appears in the registry only through a receiver join
    that names an unregistered room. *)
Lemma empty_room_origin env ev h h' out n room' :
  no_empty_room h → handle env ev h = Some (h', out) →
  rooms h' !! n = Some room' → empty_room room' → refused_unregistered ev h n.
Proof.
  intros Hinv Hstep Hroom' Hempty.
  destruct (step_rooms _ _ _ _ _ _ _ Hstep Hroom')
    as [(room & Hroom & _ & Hsame)|(_ & _ & Href)].
  - specialize (Hsame Hempty). subst room'. by destruct (Hinv n room).
  - by apply Href.
Qed.

(** C2, evaluated where it fails.  After a connection and a receiver
    join without code for the unregistered name "home", the registry
    holds a room whose sender is empty and whose receivers are empty.
    By [empty_room_origin] this refusal is the only way such a room
    enters the registry. *)
Theorem refused_join_leaves_empty_room :
  ∃ h out, run stray_receiver init = Some (h, out) ∧ ¬ no_empty_room h.
Proof.
  eexists _, _. split; [vm_compute; reflexivity|].
  intros H. apply (H "home" (mkRoom None [] "5500")); [vm_compute; reflexivity|].
  by split.
Qed.

(* ------------------------------------------------------------------ *)
(** ** Access codes *)











(* ------------------------------------------------------------------ *)
(** ** Sessions that join once *)

Lemma consistent_init : consistent init.
Proof. split; intros *; unfold getMeta; cbn; by rewrite lookup_empty. Qed.

Lemma no_room_no_member h ws meta n room :
  consistent h → getMeta h ws = Some meta → roomName meta = None →
  rooms h !! n = Some room → sender room ≠ Some ws ∧ ws ∉ receivers room.
Proof.
  intros Hc Hm Hn Hr. split.
  - intros Hs. destruct (sender_meta h Hc _ _ _ Hr Hs) as (m & ? & ? & _). congruence.
  - intros Hs. destruct (receiver_meta h Hc _ _ _ Hr Hs) as (m & ? & ? & _). congruence.
Qed.

Lemma other_room_no_member h ws meta k room :
  consistent h → getMeta h ws = Some meta → roomName meta ≠ Some k →
  rooms h !! k = Some room → sender room ≠ Some ws ∧ ws ∉ receivers room.
Proof.
  intros Hc Hm Hn Hr. split.
  - intros Hs. destruct (sender_meta h Hc _ _ _ Hr Hs) as (m & ? & ? & _). congruence.
  - intros Hs. destruct (receiver_meta h Hc _ _ _ Hr Hs) as (m & ? & ? & _). congruence.
Qed.

Lemma consistent_connection h h' out :
  consistent h → onConnection h = Some (h', out) → consistent h'.
Proof.
  intros Hc [= <- <-]. 
  assert (Hfresh : ∀ ws meta, getMeta h ws = Some meta → ws ≠ sockets h).
  { intros ws meta Hm%(live_bound h Hc). lia. }
  split; unfold getMeta in *; cbn [rooms socketMeta sockets].
  - intros ws meta. rewrite lookup_insert. case_decide as E.
    + subst. lia.
    + intros Hm%(live_bound h Hc). lia.
  - intros ws meta. rewrite lookup_insert. case_decide as E.
    + by intros [= <-].
    + apply (names_truthy h Hc).
  - intros n room ws Hr Hs.
    destruct (sender_meta h Hc _ _ _ Hr Hs) as (m & Hm & ?).
    exists m. rewrite lookup_insert_ne; [done|]. intros <-. by eapply Hfresh.
  - intros n room ws Hr Hs.
    destruct (receiver_meta h Hc _ _ _ Hr Hs) as (m & Hm & ?).
    exists m. rewrite lookup_insert_ne; [done|]. intros <-. by eapply Hfresh.
  - intros ws meta n. rewrite lookup_insert. case_decide as E.
    + by intros [= <-].
    + apply (member_room h Hc).
Qed.

Lemma consistent_register h ws meta p :
  consistent h → getMeta h ws = Some meta →
  consistent (set_socketMeta (<[ws := set_peerId p meta]> (socketMeta h)) h).
Proof.
  intros Hc Hm.
  assert (Hview : ∀ w m', (<[ws := set_peerId p meta]> (socketMeta h)) !! w = Some m' →
            ∃ m, getMeta h w = Some m ∧ role m = role m' ∧ roomName m = roomName m').
  { intros w m'. rewrite lookup_insert. case_decide as E.
    - intros [= <-]. subst. by exists meta.
    - intros ?. by exists m'. }
  assert (Hback : ∀ w m, getMeta h w = Some m →
            ∃ m', (<[ws := set_peerId p meta]> (socketMeta h)) !! w = Some m' ∧
                  role m = role m' ∧ roomName m = roomName m').
  { intros w m Hw. rewrite lookup_insert. case_decide as E.
    - subst. eexists. split; [done|]. by replace m with meta by congruence.
    - by exists m. }
  split; unfold getMeta at 1; cbn [rooms socketMeta sockets set_socketMeta].
  - intros w m' (m & Hw & _)%Hview. by eapply live_bound.
  - intros w m' (m & Hw & _ & <-)%Hview. by eapply names_truthy.
  - intros n room w Hr Hs.
    destruct (sender_meta h Hc _ _ _ Hr Hs) as (m & (m' & ? & Hr' & Hn')%Hback & ? & ?).
    exists m'. split_and!; congruence.
  - intros n room w Hr Hs.
    destruct (receiver_meta h Hc _ _ _ Hr Hs) as (m & (m' & ? & Hr' & Hn')%Hback & ? & ?).
    exists m'. split_and!; congruence.
  - intros w m' n (m & Hw & Hr' & Hn')%Hview Hn.
    destruct (member_room h Hc w m n) as (room & ? & ? & ?); [done|congruence|].
    exists room. rewrite <- Hr'. done.
Qed.

Lemma consistent_fresh_room h n c :
  consistent h → rooms h !! n = None →
  consistent (set_rooms (<[n := mkRoom None [] c]> (rooms h)) h).
Proof.
  intros Hc Hn. split; unfold getMeta; cbn [rooms socketMeta sockets set_rooms].
  - apply (live_bound h Hc).
  - apply (names_truthy h Hc).
  - intros k room ws. rewrite lookup_insert. case_decide as E.
    + by intros [= <-].
    + apply (sender_meta h Hc).
  - intros k room ws. rewrite lookup_insert. case_decide as E.
    + by intros [= <-] ?%elem_of_nil.
    + apply (receiver_meta h Hc).
  - intros ws meta k Hm Hk.
    destruct (member_room h Hc ws meta k Hm Hk) as (room & Hr & ?).
    exists room. rewrite lookup_insert_ne; [done|]. congruence.
Qed.

Lemma consistent_join_receiver h ws meta n r room :
  consistent h → getMeta h ws = Some meta → roomName meta = None →
  n ≠ "" → r ≠ "sender" → rooms h !! n = Some room →
  consistent
    (mkHub (<[n := mkRoom (sender room) (Set_add ws (receivers room)) (code room)]>
              (rooms h))
           (<[ws := mkMeta (Some r) (peerId meta) (Some n)]> (socketMeta h))
           (sockets h)).
Proof.
  intros Hc Hm Hnone Hn Hr Hroom.
  assert (Hout : ∀ k room', rooms h !! k = Some room' →
            sender room' ≠ Some ws ∧ ws ∉ receivers room').
  { intros. by eapply no_room_no_member. }
  split; unfold getMeta in *; cbn [rooms socketMeta sockets].
  - intros w m. rewrite lookup_insert. case_decide as E.
    + intros _. subst. by eapply (live_bound h Hc).
    + apply (live_bound h Hc).
  - intros w m. rewrite lookup_insert. case_decide as E.
    + intros [= <-]. cbn. congruence.
    + apply (names_truthy h Hc).
  - intros k room' w. rewrite lookup_insert. case_decide as E.
    + intros [= <-]. cbn [sender]. intros Hs. subst k.
      destruct (sender_meta h Hc _ _ _ Hroom Hs) as (m & Hw & ?).
      exists m. rewrite lookup_insert_ne; [done|].
      intros <-. by destruct (Hout n room Hroom).
    + intros Hk Hs.
      destruct (sender_meta h Hc _ _ _ Hk Hs) as (m & Hw & ?).
      exists m. rewrite lookup_insert_ne; [done|].
      intros <-. by destruct (Hout k room' Hk).
  - intros k room' w. rewrite lookup_insert. case_decide as E.
    + intros [= <-]. cbn [receivers]. subst k.
      intros [->|Hw]%Set_add_elem.
      * eexists. rewrite lookup_insert_eq. split; [done|]. cbn. split; congruence.
      * destruct (receiver_meta h Hc _ _ _ Hroom Hw) as (m & Hw' & ?).
        exists m. rewrite lookup_insert_ne; [done|].
        intros <-. by destruct (Hout n room Hroom).
    + intros Hk Hs.
      destruct (receiver_meta h Hc _ _ _ Hk Hs) as (m & Hw & ?).
      exists m. rewrite lookup_insert_ne; [done|].
      intros <-. by destruct (Hout k room' Hk).
  - intros w m k. rewrite lookup_insert. case_decide as E.
    + intros [= <-]. cbn. intros [= <-]. subst w.
      eexists. rewrite lookup_insert_eq. split; [done|]. cbn.
      split; [congruence|]. intros _. apply Set_add_elem. by left.
    + intros Hw Hk.
      destruct (member_room h Hc w m k Hw Hk) as (room' & Hr' & Hs' & Hrc').
      rewrite lookup_insert. case_decide as E'.
      * subst k. replace room' with room in * by congruence.
        eexists. split; [done|]. cbn. split; [done|].
        intros ?. apply Set_add_elem. right. by apply Hrc'.
      * by exists room'.
Qed.

Lemma consistent_join_sender h ws meta n room ms' rcv notice :
  consistent h → getMeta h ws = Some meta → roomName meta = None →
  n ≠ "" → rooms h !! n = Some room →
  demote ws room
    (<[ws := mkMeta (Some "sender") (peerId meta) (Some n)]> (socketMeta h))
    = Some (ms', rcv, notice) →
  consistent
    (mkHub (<[n := mkRoom (Some ws) rcv (code room)]> (rooms h)) ms' (sockets h)).
Proof.
  intros Hc Hm Hnone Hn Hroom Hd.
  assert (Hout : ∀ k room', rooms h !! k = Some room' →
            sender room' ≠ Some ws ∧ ws ∉ receivers room').
  { intros. by eapply no_room_no_member. }
  set (M := mkMeta (Some "sender") (peerId meta) (Some n)) in *.
  apply demote_cases in Hd
    as [(old & mo & Hs & Hne & Hmo & -> & -> & _)|(Hs & -> & -> & _)].
  - rewrite lookup_insert_ne in Hmo by done.
    destruct (sender_meta h Hc _ _ _ Hroom Hs) as (mo' & Hmo' & Hon & Hor).
    unfold getMeta in Hmo'. replace mo' with mo in * by congruence. clear Hmo'.
    assert (Hlook : ∀ w,
      (<[old := set_role (Some "receiver") mo]> (<[ws := M]> (socketMeta h))) !! w
      = if decide (w = old) then Some (set_role (Some "receiver") mo)
        else if decide (w = ws) then Some M else socketMeta h !! w).
    { intros w. rewrite lookup_insert. case_decide as E.
      - subst. by rewrite decide_True.
      - rewrite decide_False by done. rewrite lookup_insert.
        case_decide; subst; [by rewrite decide_True|by rewrite decide_False]. }
    split; unfold getMeta in *; cbn [rooms socketMeta sockets].
    + intros w m. rewrite Hlook. repeat case_decide; subst.
      * intros _. by eapply (live_bound h Hc).
      * intros _. by eapply (live_bound h Hc).
      * apply (live_bound h Hc).
    + intros w m. rewrite Hlook. repeat case_decide; subst.
      * intros [= <-]. cbn. congruence.
      * intros [= <-]. cbn. congruence.
      * apply (names_truthy h Hc).
    + intros k room' w. rewrite lookup_insert. case_decide as E.
      * intros [= <-]. cbn [sender]. intros [= <-]. subst k.
        exists M. rewrite Hlook, decide_False, decide_True by done. done.
      * intros Hk Hsk.
        destruct (sender_meta h Hc _ _ _ Hk Hsk) as (m & Hw & Hwn & ?).
        exists m. rewrite Hlook, !decide_False; [done| |].
        -- intros ->. by destruct (Hout k room' Hk).
        -- intros ->. unfold getMeta in *. congruence.
    + intros k room' w. rewrite lookup_insert. case_decide as E.
      * intros [= <-]. cbn [receivers]. subst k.
        intros [->|Hw]%Set_add_elem.
        -- eexists. rewrite Hlook, decide_True by done. split; [done|]. cbn.
           split; congruence.
        -- destruct (decide (w = old)) as [->|Hwo].
           ++ eexists. rewrite Hlook, decide_True by done. split; [done|]. cbn.
              split; congruence.
           ++ destruct (receiver_meta h Hc _ _ _ Hroom Hw) as (m & Hw' & ?).
              exists m. rewrite Hlook, !decide_False; [done| |done].
              intros ->. by destruct (Hout n room Hroom).
      * intros Hk Hsk.
        destruct (receiver_meta h Hc _ _ _ Hk Hsk) as (m & Hw & Hwn & ?).
        exists m. rewrite Hlook, !decide_False; [done| |].
        -- intros ->. by destruct (Hout k room' Hk).
        -- intros ->. unfold getMeta in *. congruence.
    + intros w m k. rewrite Hlook. repeat case_decide; subst.
      * intros [= <-]. cbn. intros Hk.
        replace k with n by congruence.
        eexists. rewrite lookup_insert_eq. split; [done|]. cbn.
        split; [congruence|]. intros _. apply Set_add_elem. by left.
      * intros [= <-]. cbn. intros [= <-].
        eexists. rewrite lookup_insert_eq. split; [done|]. cbn. done.
      * intros Hw Hk.
        destruct (member_room h Hc w m k Hw Hk) as (room' & Hr' & Hs' & Hrc').
        rewrite lookup_insert. case_decide as E'.
        -- subst k. replace room' with room in * by congruence.
           eexists. split; [done|]. cbn.
           assert (role m ≠ Some "sender").
           { intros Hrs. specialize (Hs' Hrs). congruence. }
           split; [done|]. intros _. apply Set_add_elem. right. by apply Hrc'.
        -- by exists room'.
  - assert (Hs' : sender room = None).
    { destruct Hs as [?|Hs]; [done|]. by destruct (Hout n room Hroom). }
    clear Hs.
    split; unfold getMeta in *; cbn [rooms socketMeta sockets].
    + intros w m. rewrite lookup_insert. case_decide as E.
      * intros _. subst. by eapply (live_bound h Hc).
      * apply (live_bound h Hc).
    + intros w m. rewrite lookup_insert. case_decide as E.
      * intros [= <-]. cbn. congruence.
      * apply (names_truthy h Hc).
    + intros k room' w. rewrite lookup_insert. case_decide as E.
      * intros [= <-]. cbn [sender]. intros [= <-]. subst k.
        exists M. by rewrite lookup_insert_eq.
      * intros Hk Hsk.
        destruct (sender_meta h Hc _ _ _ Hk Hsk) as (m & Hw & Hwn & ?).
        exists m. rewrite lookup_insert_ne; [done|].
        intros <-. by destruct (Hout k room' Hk).
    + intros k room' w. rewrite lookup_insert. case_decide as E.
      * intros [= <-]. cbn [receivers]. subst k. intros Hw.
        destruct (receiver_meta h Hc _ _ _ Hroom Hw) as (m & Hw' & ?).
        exists m. rewrite lookup_insert_ne; [done|].
        intros <-. by destruct (Hout n room Hroom).
      * intros Hk Hsk.
        destruct (receiver_meta h Hc _ _ _ Hk Hsk) as (m & Hw & Hwn & ?).
        exists m. rewrite lookup_insert_ne; [done|].
        intros <-. by destruct (Hout k room' Hk).
    + intros w m k. rewrite lookup_insert. case_decide as E.
      * intros [= <-]. cbn. intros [= <-]. subst w.
        eexists. rewrite lookup_insert_eq. split; [done|]. cbn. done.
      * intros Hw Hk.
        destruct (member_room h Hc w m k Hw Hk) as (room' & Hr' & Hsk & Hrc').
        rewrite lookup_insert. case_decide as E'.
        -- subst k. replace room' with room in * by congruence.
           eexists. split; [done|]. cbn.
           assert (role m ≠ Some "sender").
           { intros Hrs. specialize (Hsk Hrs). congruence. }
           split; [done|]. intros _. by apply Hrc'.
        -- by exists room'.
Qed.

Lemma consistent_forget h ws rs' :
  consistent h →
  (∀ k room', rs' !! k = Some room' →
     ∃ room, rooms h !! k = Some room ∧
       (∀ s, sender room' = Some s → sender room = Some s ∧ s ≠ ws) ∧
       (∀ x, x ∈ receivers room' → x ∈ receivers room ∧ x ≠ ws)) →
  (∀ w m k, w ≠ ws → getMeta h w = Some m → roomName m = Some k →
     ∃ room', rs' !! k = Some room' ∧
       (role m = Some "sender" → sender room' = Some w) ∧
       (role m ≠ Some "sender" → w ∈ receivers room')) →
  consistent (mkHub rs' (delete ws (socketMeta h)) (sockets h)).
Proof.
  intros Hc Hsub Hkeep.
  split; unfold getMeta at 1; cbn [rooms socketMeta sockets].
  - intros w m [_ Hw]%lookup_delete_Some. by eapply (live_bound h Hc).
  - intros w m [_ Hw]%lookup_delete_Some. by eapply (names_truthy h Hc).
  - intros k room' w Hk Hs.
    destruct (Hsub k room' Hk) as (room & Hr & Hsnd & _).
    destruct (Hsnd w Hs) as [Hs' Hne].
    destruct (sender_meta h Hc _ _ _ Hr Hs') as (m & Hw & ?).
    exists m. split; [|done]. by apply lookup_delete_Some.
  - intros k room' w Hk Hx.
    destruct (Hsub k room' Hk) as (room & Hr & _ & Hrcv).
    destruct (Hrcv w Hx) as [Hx' Hne].
    destruct (receiver_meta h Hc _ _ _ Hr Hx') as (m & Hw & ?).
    exists m. split; [|done]. by apply lookup_delete_Some.
  - intros w m k [Hne Hw]%lookup_delete_Some Hk. by eapply Hkeep.
Qed.

Lemma consistent_close env ws h h' out :
  consistent h → onClose env ws h = Some (h', out) → consistent h'.
Proof.
  intros Hc. unfold onClose.
  destruct (getMeta h ws) as [meta|] eqn:Hm; [|done]. cbn [mbind option_bind].
  assert (Hquiet : (∀ k room, rooms h !! k = Some room →
                      sender room ≠ Some ws ∧ ws ∉ receivers room) →
                   consistent (set_socketMeta (delete ws (socketMeta h)) h)).
  { intros Hout. apply consistent_forget; [done| |].
    - intros k room' Hk. exists room'. split; [done|].
      destruct (Hout k room' Hk) as [Hs Hx].
      split; [intros s Hs'|intros x Hx']; (split; [done|congruence]).
    - intros w m k _ Hw Hk. by apply (member_room h Hc). }
  destruct (truthy (roomName meta)) eqn:Hrn; cbn [negb].
  2:{ intros [= <- <-]. apply Hquiet. intros k room Hk.
      eapply other_room_no_member; [done..| |done].
      apply truthy_false in Hrn as [->| Hrn]; [done|].
      by destruct (names_truthy h Hc ws meta Hm). }
  apply truthy_true in Hrn as (n & Hn & Hn').
  rewrite Hn. simpl (default _ _).
  destruct (member_room h Hc ws meta n Hm Hn) as (room & Hroom & Hsnd & Hrcv).
  rewrite Hroom.
  destruct (leave env ws meta room) as [room' out'] eqn:Hleave.
  intros [= <- <-].
  assert (Helse : ∀ k room0, k ≠ n → rooms h !! k = Some room0 →
            sender room0 ≠ Some ws ∧ ws ∉ receivers room0).
  { intros k room0 Hk Hr0. eapply other_room_no_member; [done..| |done]. congruence. }
  destruct (decide (role meta = Some "sender")) as [Hrole|Hrole].
  - specialize (Hsnd Hrole).
    rewrite leave_sender in Hleave by done. injection Hleave as <- <-.
    assert (Hin : ∀ x, x ∈ receivers room → x ≠ ws).
    { intros x Hx ->. destruct (receiver_meta h Hc _ _ _ Hroom Hx) as (m & ? & _ & ?).
      congruence. }
    apply consistent_forget; [done| |].
    + intros k room' Hk. destruct (decide (k = n)) as [->|Hkn].
      * exists room. split; [done|].
        destruct (cleanup_same n (set_sender None room) (rooms h)) as [[Hl _]|[Hl _]];
          [|congruence].
        replace room' with (set_sender None room) by congruence. cbn.
        split; [done|]. intros x Hx. split; [done|by apply Hin].
      * rewrite cleanup_other in Hk by done. exists room'. split; [done|].
        destruct (Helse k room' Hkn Hk) as [Hs Hx].
        split; [intros s Hs'|intros x Hx']; (split; [done|congruence]).
    + intros w m k Hne Hw Hk. destruct (decide (k = n)) as [->|Hkn].
      * destruct (member_room h Hc w m n Hw Hk) as (room0 & Hr0 & Hs0 & Hx0).
        replace room0 with room in * by congruence.
        assert (Hnr : role m ≠ Some "sender").
        { intros Hr. specialize (Hs0 Hr). congruence. }
        specialize (Hx0 Hnr).
        destruct (cleanup_same n (set_sender None room) (rooms h))
          as [[Hl _]|(_ & _ & Hl)].
        -- eexists. split; [done|]. cbn. done.
        -- cbn in Hl. rewrite Hl in Hx0. by apply elem_of_nil in Hx0.
      * rewrite cleanup_other by done. by apply (member_room h Hc).
  - specialize (Hrcv Hrole).
    rewrite leave_receiver in Hleave by (by intros [? _]).
    injection Hleave as <- <-.
    assert (Hns : sender room ≠ Some ws).
    { intros Hs. destruct (sender_meta h Hc _ _ _ Hroom Hs) as (m & ? & _ & ?).
      congruence. }
    set (room' := set_receivers (Set_delete ws (receivers room)) room).
    apply consistent_forget; [done| |].
    + intros k room0 Hk. destruct (decide (k = n)) as [->|Hkn].
      * exists room. split; [done|].
        destruct (cleanup_same n room' (rooms h)) as [[Hl _]|[Hl _]];
          [|congruence].
        replace room0 with room' by congruence. cbn.
        split; [intros s Hs; split; [done|congruence]|].
        intros x Hx%Set_delete_elem. done.
      * rewrite cleanup_other in Hk by done. exists room0. split; [done|].
        destruct (Helse k room0 Hkn Hk) as [Hs Hx].
        split; [intros s Hs'|intros x Hx']; (split; [done|congruence]).
    + intros w m k Hne Hw Hk. destruct (decide (k = n)) as [->|Hkn].
      * destruct (member_room h Hc w m n Hw Hk) as (room0 & Hr0 & Hs0 & Hx0).
        replace room0 with room in * by congruence.
        assert (Hmem : (role m = Some "sender" → sender room' = Some w) ∧
                       (role m ≠ Some "sender" → w ∈ receivers room')).
        { split; [done|]. intros Hr. apply Set_delete_elem. split; [by apply Hx0|done]. }
        destruct (cleanup_same n room' (rooms h)) as [[Hl _]|(_ & Hl1 & Hl2)].
        -- by exists room'.
        -- destruct Hmem as [Hm1 Hm2].
           destruct (decide (role m = Some "sender")) as [Hr|Hr].
           ++ specialize (Hm1 Hr). congruence.
           ++ specialize (Hm2 Hr). rewrite Hl2 in Hm2. by apply elem_of_nil in Hm2.
      * rewrite cleanup_other by done. by apply (member_room h Hc).
Qed.

Lemma accepted_intro env msg h n r room rs :
  m_room msg = Some n → n ≠ "" → m_role msg = Some r → r ≠ "" →
  getRoom (Math_random env) n (rooms h) = (room, rs) →
  denied msg room = false → accepted env msg h = true.
Proof.
  intros Hn Hn' Hr Hr' Hget Hd. unfold accepted.
  pass_guard (m_room msg). pass_guard (m_role msg).
  rewrite Hn. simpl (default _ _). rewrite Hget. cbn. by rewrite Hd.
Qed.

Lemma first_join_no_room env ws msg h meta :
  first_join env (Message ws (Json msg)) h = true →
  m_type msg = "join" → accepted env msg h = true →
  getMeta h ws = Some meta → roomName meta = None.
Proof.
  unfold first_join, joiner. intros H Ht Ha Hm.
  rewrite Ht, Ha, bool_decide_eq_true_2 in H by done. cbn [andb] in H.
  rewrite Hm in H.
  by apply bool_decide_eq_true in H.
Qed.

Lemma consistent_join env ws msg h h' out :
  consistent h → first_join env (Message ws (Json msg)) h = true →
  m_type msg = "join" → join env ws msg h = Some (h', out) → consistent h'.
Proof.
  intros Hc Hg Ht Hj. apply join_cases in Hj.
  destruct Hj as [ |n room rs Hn Hn' Hr Hget Hcode
                  |n room rs meta ms' rcv notice Hn Hn' Hr Hget Hm Hd
                  |n r room rs meta Hn Hn' Hr Hr' Hrs Hcode Hget Hm].
  - done.
  - apply getRoom_cases in Hget as [[_ ->]|(Hfresh & -> & ->)].
    + by rewrite set_rooms_same.
    + by apply consistent_fresh_room.
  - assert (Hnone : roomName meta = None).
    { eapply first_join_no_room; [done..| |done].
      eapply accepted_intro; [done..|]. unfold denied. by rewrite Hr. }
    apply getRoom_cases in Hget as [[Hroom ->]|(Hfresh & -> & ->)].
    + by eapply consistent_join_sender.
    + pose proof (consistent_join_sender
                (set_rooms (<[n := mkRoom None [] (generateRoomCode (Math_random env))]>
                              (rooms h)) h) ws meta n
                (mkRoom None [] (generateRoomCode (Math_random env)))
                ms' rcv notice) as H.
      cbn [rooms set_rooms socketMeta sockets] in H.
      rewrite insert_insert_eq in H. apply H; try done.
      * by apply consistent_fresh_room.
      * apply lookup_insert_eq.
  - assert (Hnone : roomName meta = None).
    { eapply first_join_no_room; [done..| |done].
      eapply accepted_intro; [done..|]. unfold denied. rewrite Hr.
      destruct (decide (r = "receiver")) as [->|Hne].
      - rewrite Hcode by done. by rewrite !bool_decide_eq_true_2.
      - rewrite (bool_decide_eq_false_2 (Some r = _)) by congruence. done. }
    apply getRoom_cases in Hget as [[Hroom ->]|(Hfresh & -> & ->)].
    + by eapply consistent_join_receiver.
    + pose proof (consistent_join_receiver
                (set_rooms (<[n := mkRoom None [] (generateRoomCode (Math_random env))]>
                              (rooms h)) h) ws meta n r
                (mkRoom None [] (generateRoomCode (Math_random env)))) as H.
      cbn [rooms set_rooms socketMeta sockets] in H.
      rewrite insert_insert_eq in H. apply H; try done.
      * by apply consistent_fresh_room.
      * apply lookup_insert_eq.
Qed.

(** The registry and the side table stay consistent as long as no
    session joins twice. *)
Lemma consistent_step env ev h h' out :
  consistent h → first_join env ev h = true →
  handle env ev h = Some (h', out) → consistent h'.
Proof.
  intros Hc Hg. destruct ev as [|ws [|msg]|ws]; cbn [handle].
  - by apply consistent_connection.
  - by intros [= <- _].
  - unfold onMessage. case_bool_decide as Hreg.
    + destruct (getMeta h ws) as [meta|] eqn:Hm; [|done]. cbn.
      intros [= <- _]. by apply consistent_register.
    + case_bool_decide as Hjoin; [by eapply consistent_join|].
      destruct (_ || _); [|by intros [= <- _]].
      by intros ->%relay_same.
  - by eapply consistent_close.
Qed.

(** Hubs reached without a second join are consistent, and in a
    consistent hub every member of a room is a live session: the
    TypeErrors of the demotion and of the unicast loop cannot occur. *)
Lemma consistent_reachable evs h out :
  always first_join evs init = true → run evs init = Some (h, out) →
  consistent h.
Proof.
  intros Hg Hrun.
  eapply (always_run first_join consistent); [|apply consistent_init|done..].
  intros *. apply consistent_step.
Qed.

Lemma consistent_members_live h n room x :
  consistent h → rooms h !! n = Some room →
  sender room = Some x ∨ x ∈ receivers room → is_Some (getMeta h x).
Proof.
  intros Hc Hroom [Hs|Hx].
  - destruct (sender_meta h Hc _ _ _ Hroom Hs) as (m & ? & _). by exists m.
  - destruct (receiver_meta h Hc _ _ _ Hroom Hx) as (m & ? & _). by exists m.
Qed.

(** C4.  In every hub reached by a sequence of events in which each
    session joins at most once (a join is only accepted from a session
    that has no room), the sender of a registered room is not one of
    its receivers. *)
Theorem sender_never_receiver evs h out :
  always first_join evs init = true → run evs init = Some (h, out) →
  sender_not_receiver h.
Proof.
  intros Hg Hrun.
  pose proof (consistent_reachable evs h out Hg Hrun) as Hc.
  intros n room s Hroom Hs Hx.
  destruct (sender_meta h Hc _ _ _ Hroom Hs) as (m & Hm & _ & Hr).
  destruct (receiver_meta h Hc _ _ _ Hroom Hx) as (m' & Hm' & _ & Hr').
  congruence.
Qed.

Lemma sender_never_receiver_witness : sender_not_receiver (hub_after takeover).
Proof.
  apply (sender_never_receiver takeover (hub_after takeover) (sent_during takeover));
    vm_compute; reflexivity.
Defined.

(** A session gets a room name only by sending a [join] message. *)
Lemma step_roomName env ev h h' out w m' :
  handle env ev h = Some (h', out) →
  getMeta h' w = Some m' → roomName m' ≠ None →
  (∃ m, getMeta h w = Some m ∧ roomName m ≠ None)
  ∨ (∃ msg, ev = Message w (Json msg) ∧ m_type msg = "join").
Proof.
  assert (Hsame : getMeta h w = Some m' → roomName m' ≠ None →
    (∃ m, getMeta h w = Some m ∧ roomName m ≠ None)
    ∨ (∃ msg, ev = Message w (Json msg) ∧ m_type msg = "join")).
  { intros ??. left. by exists m'. }
  unfold getMeta in *.
  destruct ev as [|ws [|msg]|ws]; cbn [handle].
  - intros [= <- _]. cbn. rewrite lookup_insert.
    case_decide; [by intros [= <-]|exact Hsame].
  - intros [= <- _]. exact Hsame.
  - unfold onMessage. case_bool_decide as Hreg.
    { destruct (getMeta h ws) as [meta|] eqn:Hm; [|done]. cbn.
      intros [= <- _]. cbn. rewrite lookup_insert.
      case_decide as E; [|exact Hsame]. subst w. intros [= <-]. cbn.
      intros ?. left. by exists meta. }
    case_bool_decide as Hjoin.
    2:{ destruct (_ || _); [|intros [= <- _]; exact Hsame].
        intros ->%relay_same. exact Hsame. }
    intros Hj%join_cases.
    destruct Hj as [ |k room rs Hn Hn' Hr Hget Hcode
                    |k room rs meta ms' rcv notice Hn Hn' Hr Hget Hm Hd
                    |k r room rs meta Hn Hn' Hr Hr' Hrs Hcode Hget Hm];
      cbn [socketMeta set_rooms].
    + exact Hsame.
    + exact Hsame.
    + apply demote_cases in Hd
        as [(old & mo & Hs & Hne & Hmo & -> & -> & _)|(Hs & -> & -> & _)].
      * rewrite lookup_insert_ne in Hmo by done.
        rewrite lookup_insert. case_decide as E.
        -- subst w. intros [= <-]. cbn. intros ?. left. by exists mo.
        -- rewrite lookup_insert. case_decide as E'; [|exact Hsame].
           subst w. intros _ _. right. by exists msg.
      * rewrite lookup_insert. case_decide as E'; [|exact Hsame].
        subst w. intros _ _. right. by exists msg.
    + rewrite lookup_insert. case_decide as E'; [|exact Hsame].
      subst w. intros _ _. right. by exists msg.
  - unfold onClose. destruct (getMeta h ws) as [meta|] eqn:Hm; [|done].
    cbn [mbind option_bind].
    assert (Hdel : delete ws (socketMeta h) !! w = Some m' → roomName m' ≠ None →
      (∃ m, socketMeta h !! w = Some m ∧ roomName m ≠ None)
      ∨ (∃ msg, Close ws = Message w (Json msg) ∧ m_type msg = "join")).
    { intros [_ ?]%lookup_delete_Some ?. left. by exists m'. }
    destruct (negb _); [intros [= <- _]; exact Hdel|].
    destruct (rooms h !! _) as [room|]; [|intros [= <- _]; exact Hdel].
    destruct (leave _ _ _ _). intros [= <- _]. exact Hdel.
Qed.

Lemma one_join_each_first_join evs h :
  NoDup (join_senders evs) →
  (∀ ws meta, getMeta h ws = Some meta → roomName meta ≠ None →
     ws ∉ join_senders evs) →
  always first_join evs h = true.
Proof.
  revert h. induction evs as [|[env ev] evs IH]; intros h Hnd Hnew; [done|].
  cbn [always]. apply andb_true_iff. split.
  - unfold first_join, joiner. destruct ev as [|ws [|msg]|ws]; try done.
    case_bool_decide as Ht; [|done]. cbn [andb].
    destruct (accepted env msg h); [|done].
    destruct (getMeta h ws) as [meta|] eqn:Hm; [|done].
    apply bool_decide_eq_true. destruct (roomName meta) eqn:Hn; [|done].
    exfalso. apply (Hnew ws meta Hm); [congruence|].
    cbn. rewrite bool_decide_eq_true_2 by done. apply list_elem_of_here.
  - destruct (handle env ev h) as [[h1 out1]|] eqn:Hstep; [|done].
    assert (Htail : join_senders ((env, ev) :: evs) = join_senders evs
                    ∨ ∃ ws msg, ev = Message ws (Json msg) ∧ m_type msg = "join" ∧
                        join_senders ((env, ev) :: evs) = ws :: join_senders evs).
    { destruct ev as [|ws [|msg]|ws]; try (by left). cbn.
      case_bool_decide; [right; by exists ws, msg|by left]. }
    apply IH.
    + destruct Htail as [E|(ws & msg & _ & _ & E)]; rewrite E in Hnd; [done|].
      by apply NoDup_cons in Hnd as [_ ?].
    + intros w m1 Hm1 Hn1.
      destruct (step_roomName _ _ _ _ _ _ _ Hstep Hm1 Hn1)
        as [(m & Hm & Hn)|(msg & -> & Ht)].
      * specialize (Hnew w m Hm Hn).
        destruct Htail as [E|(ws & msg & _ & _ & E)]; rewrite E in Hnew; [done|].
        intros Hin. apply Hnew. by apply list_elem_of_further.
      * cbn in Hnd. rewrite bool_decide_eq_true_2 in Hnd by done.
        by apply NoDup_cons in Hnd as [? _].
Qed.

(** In particular no session joins twice when no socket sends two [join]
    messages. *)
Lemma one_join_each evs :
  NoDup (join_senders evs) → always first_join evs init = true.
Proof.
  intros Hnd. apply one_join_each_first_join; [done|].
  intros ws meta. unfold getMeta. cbn. by rewrite lookup_empty.
Qed.

(* ------------------------------------------------------------------ *)
(** ** Agreement of sessions and rooms *)

Lemma roles_known_init : roles_known init.
Proof. intros ws meta. unfold getMeta. cbn. by rewrite lookup_empty. Qed.

Lemma known_role_join env ws msg h :
  known_role env (Message ws (Json msg)) h = true →
  m_type msg = "join" → accepted env msg h = true →
  m_role msg = Some "sender" ∨ m_role msg = Some "receiver".
Proof.
  unfold known_role, joiner. intros H Ht Ha.
  rewrite Ht, Ha, bool_decide_eq_true_2 in H by done. cbn [andb] in H.
  by apply bool_decide_eq_true in H.
Qed.

Lemma roles_known_step env ev h h' out :
  roles_known h → known_role env ev h = true →
  handle env ev h = Some (h', out) → roles_known h'.
Proof.
  unfold roles_known. intros Hk Hg. destruct ev as [|ws [|msg]|ws]; cbn [handle].
  - intros [= <- _] w m. unfold getMeta. cbn. rewrite lookup_insert.
    case_decide; [intros [= <-] [? ?]; done|exact (Hk w m)].
  - by intros [= <- _].
  - unfold onMessage. case_bool_decide as Hreg.
    { destruct (getMeta h ws) as [meta|] eqn:Hm; [|done]. cbn.
      intros [= <- _] w m. unfold getMeta. cbn. rewrite lookup_insert.
      case_decide; [|exact (Hk w m)]. intros [= <-]. cbn. exact (Hk ws meta Hm). }
    case_bool_decide as Hjoin.
    2:{ destruct (_ || _); [|by intros [= <- _]]. by intros ->%relay_same. }
    intros Hj%join_cases.
    destruct Hj as [ |n room rs Hn Hn' Hr Hget Hcode
                    |n room rs meta ms' rcv notice Hn Hn' Hr Hget Hm Hd
                    |n r room rs meta Hn Hn' Hr Hr' Hrs Hcode Hget Hm].
    + done.
    + done.
    + intros w m. unfold getMeta. cbn [socketMeta].
      apply demote_cases in Hd
        as [(old & mo & Hs & Hne & Hmo & -> & -> & _)|(Hs & -> & -> & _)].
      * rewrite lookup_insert. case_decide; [intros [= <-]; cbn; by right|].
        rewrite lookup_insert. case_decide; [intros [= <-]; cbn; by left|exact (Hk w m)].
      * rewrite lookup_insert. case_decide; [intros [= <-]; cbn; by left|exact (Hk w m)].
    + assert (Hrole : m_role msg = Some "sender" ∨ m_role msg = Some "receiver").
      { eapply known_role_join; [done..|].
        eapply accepted_intro; [done..|]. unfold denied. rewrite Hr.
        destruct (decide (r = "receiver")) as [->|Hne].
        - rewrite Hcode by done. by rewrite !bool_decide_eq_true_2.
        - rewrite (bool_decide_eq_false_2 (Some r = _)) by congruence. done. }
      intros w m. unfold getMeta. cbn [socketMeta].
      rewrite lookup_insert. case_decide; [|exact (Hk w m)].
      intros [= <-] _. cbn. destruct Hrole; [left|right]; congruence.
  - unfold onClose. destruct (getMeta h ws) as [meta|] eqn:Hm; [|done].
    cbn [mbind option_bind].
    assert (Hdel : ∀ rs, roles_known (mkHub rs (delete ws (socketMeta h)) (sockets h))).
    { intros rs w m. unfold getMeta. cbn. intros [_ ?]%lookup_delete_Some. by apply (Hk w m). }
    destruct (negb _); [intros [= <- _]; apply Hdel|].
    destruct (rooms h !! _) as [room|]; [|intros [= <- _]; apply Hdel].
    destruct (leave _ _ _ _). intros [= <- _]. apply Hdel.
Qed.

Lemma consistent_agrees h : consistent h → roles_known h → session_agrees h.
Proof.
  intros Hc Hk ws meta n room Hm Hroom. split; split.
  - intros Hs. destruct (sender_meta h Hc _ _ _ Hroom Hs) as (m & ? & ? & ?).
    replace meta with m by congruence. done.
  - intros [Hr Hn].
    destruct (member_room h Hc ws meta n Hm Hn) as (room0 & ? & Hs & _).
    replace room with room0 by congruence. by apply Hs.
  - intros Hx. destruct (receiver_meta h Hc _ _ _ Hroom Hx) as (m & ? & Hn & Hr).
    replace meta with m by congruence. split; [|done].
    destruct (Hk ws m) as [?|?]; [done|by rewrite Hn|done..].
  - intros [Hr Hn].
    destruct (member_room h Hc ws meta n Hm Hn) as (room0 & ? & _ & Hx).
    replace room with room0 by congruence. apply Hx. congruence.
Qed.

(** C8, as the code has it.  In every hub reached by a sequence of events
    in which each session joins at most once and asks for the role
    sender or receiver, sessions and rooms agree: for every live session
    and every registered room, the room's sender is the session exactly
    when the session's role is sender and its room name is the room's,
    and the session is among the room's receivers exactly when its role
    is receiver and its room name is the room's. *)
Theorem membership_agrees_with_role evs h out :
  always first_known_join evs init = true → run evs init = Some (h, out) →
  session_agrees h.
Proof.
  intros Hg Hrun.
  assert (consistent h ∧ roles_known h) as [Hc Hk].
  { eapply (always_run first_known_join (λ h, consistent h ∧ roles_known h));
      [|split; [apply consistent_init|apply roles_known_init]|done..].
    intros env ev h0 h1 out0 [Hc Hk] [Hg1 Hg2]%andb_true_iff Hstep. split.
    - by eapply consistent_step.
    - by eapply roles_known_step. }
  by apply consistent_agrees.
Qed.

Lemma membership_agrees_with_role_witness : session_agrees (hub_after takeover).
Proof.
  apply (membership_agrees_with_role takeover (hub_after takeover)
           (sent_during takeover)); vm_compute; reflexivity.
Defined.

(** C8 fails as stated.  Socket 0 joins "a" as sender and then "b" as
    sender.  Room "a" still has socket 0 as sender, but the session's
    room name is "b". *)
Lemma second_join_breaks_agreement :
  ∃ h out, run double_join init = Some (h, out) ∧ ¬ session_agrees h.
Proof.
  eexists _, _. split; [vm_compute; reflexivity|].
  intros H.
  destruct (H 0%nat (mkMeta (Some "sender") None (Some "b")) "a"
              (mkRoom (Some 0%nat) [] "5500")) as [[Hs _] _];
    [vm_compute; reflexivity..|].
  destruct Hs as [_ Hs]; [done|]. discriminate Hs.
Qed.

(** The agreement also fails after a single join with a role other than
    sender or receiver: the session is stored among the receivers, and
    its role is the string it sent. *)
Lemma other_role_breaks_agreement :
  ∃ h out, run viewer init = Some (h, out) ∧ ¬ session_agrees h.
Proof.
  eexists _, _. split; [vm_compute; reflexivity|].
  intros H.
  destruct (H 0%nat (mkMeta (Some "viewer") None (Some "home")) "home"
              (mkRoom None [0%nat] "5500")) as [_ [Hr _]];
    [vm_compute; reflexivity..|].
  destruct Hr as [Hr _]; [apply list_elem_of_here|]. discriminate Hr.
Qed.

(* ------------------------------------------------------------------ *)
(** ** Rooms and recipients *)

Lemma relay_recipients env ws msg h h' out x m :
  relay env ws msg h = Some (h', out) → (x, m) ∈ out →
  ∃ meta n room, getMeta h ws = Some meta ∧ roomName meta = Some n ∧
    rooms h !! n = Some room ∧ member x room.
Proof.
  unfold relay. destruct (getMeta h ws) as [meta|] eqn:Hm; [|done].
  cbn [mbind option_bind].
  destruct (truthy (roomName meta)) eqn:Hrn; cbn [negb].
  2:{ intros [= _ <-] Hx. by apply elem_of_nil in Hx. }
  apply truthy_true in Hrn as (n & Hn & _). rewrite Hn. simpl (default _ _).
  destruct (rooms h !! n) as [room|] eqn:Hroom.
  2:{ intros [= _ <-] Hx. by apply elem_of_nil in Hx. }
  intros Hrun Hx. exists meta, n, room. split_and!; [done..|].
  destruct (bool_decide (role meta = Some "sender")).
  - destruct (truthy (m_to msg)).
    + destruct (unicast _ _ _ _) as [out'|] eqn:Hu; [|done].
      injection Hrun as _ <-.
      destruct (unicast_at_most_one _ _ _ _ _ Hu) as [->|(y & ? & Hy & _ & _ & ->)].
      * by apply elem_of_nil in Hx.
      * apply list_elem_of_singleton in Hx as [= -> _]. by right.
    + injection Hrun as _ <-.
      apply list_elem_of_fmap in Hx as (y & [= -> _] & [_ Hy]%list_elem_of_filter).
      by right.
  - destruct (sender room) as [s|] eqn:Hs.
    + injection Hrun as _ <-. destruct (OPEN env s).
      * apply list_elem_of_singleton in Hx as [= -> _]. by left.
      * by apply elem_of_nil in Hx.
    + injection Hrun as _ <-. by apply elem_of_nil in Hx.
Qed.

Lemma leave_recipients env ws meta room x m :
  (x, m) ∈ (leave env ws meta room).2 → member x room.
Proof.
  unfold leave. destruct (_ && _); cbn [snd].
  - intros (y & [= -> _] & [_ Hy]%list_elem_of_filter)%list_elem_of_fmap. by right.
  - destruct (sender room) as [s|] eqn:Hs; [destruct (OPEN env s)|].
    + intros [= -> _]%list_elem_of_singleton. by left.
    + by intros ?%elem_of_nil.
    + by intros ?%elem_of_nil.
Qed.

(** X1.  Only [join] messages and [close] write to the registry, and each
    writes to one name only: an event that is neither leaves the whole
    registry as it was, and every event leaves the entries of all rooms
    other than the one it concerns (the room a join names, the room of
    the closing session) as they were. *)
Theorem registry_frame env ev h h' out :
  handle env ev h = Some (h', out) →
  (membership_event ev = false → rooms h' = rooms h) ∧
  (∀ k, room_of ev h ≠ Some k → rooms h' !! k = rooms h !! k).
Proof.
  destruct ev as [|ws [|msg]|ws]; cbn [handle membership_event room_of].
  - by intros [= <- _].
  - by intros [= <- _].
  - unfold onMessage. case_bool_decide as Hreg.
    { destruct (getMeta h ws) as [meta|]; [|done]. cbn [mbind option_bind].
      intros [= <- _]. by rewrite bool_decide_eq_false_2 by congruence. }
    case_bool_decide as Hjoin.
    2:{ intros Hrun. assert (h' = h) as ->; [|done].
        destruct (_ || _); [by eapply relay_same|by injection Hrun]. }
    intros Hj%join_cases. split; [done|]. intros k Hk.
    destruct Hj as [ |n room rs Hn Hn' Hr Hget Hcode
                    |n room rs meta ms' rcv notice Hn Hn' Hr Hget Hm Hd
                    |n r room rs meta Hn Hn' Hr Hr' Hrs Hcode Hget Hm];
      cbn [rooms set_rooms]; [done|..].
    + apply getRoom_cases in Hget as [[_ ->]|(_ & _ & ->)]; [done|].
      apply lookup_insert_ne. congruence.
    + apply lookup_insert_ne. congruence.
    + apply lookup_insert_ne. congruence.
  - unfold onClose. destruct (getMeta h ws) as [meta|] eqn:Hm; [|done].
    cbn [mbind option_bind]. intros Hrun. split; [done|]. intros k Hk.
    destruct (truthy (roomName meta)) eqn:Hrn; cbn [negb] in Hrun.
    2:{ by injection Hrun as <- _. }
    apply truthy_true in Hrn as (n & Hn & _). rewrite Hn in *.
    simpl (default _ _) in Hrun.
    destruct (rooms h !! n) as [room|]; [|by injection Hrun as <- _].
    destruct (leave env ws meta room) as [room' out']. injection Hrun as <- _.
    cbn [rooms]. apply cleanup_other. cbn in Hk. congruence.
Qed.

Lemma registry_frame_witness :
  (membership_event (Close 2) = false →
   rooms (hub_after (takeover ++ [(half, Close 2)])) = rooms (hub_after takeover)) ∧
  (∀ k, room_of (Close 2) (hub_after takeover) ≠ Some k →
     rooms (hub_after (takeover ++ [(half, Close 2)])) !! k
     = rooms (hub_after takeover) !! k).
Proof.
  apply (registry_frame half (Close 2) (hub_after takeover)
           (hub_after (takeover ++ [(half, Close 2)]))
           [(1%nat, sender_left); (0%nat, sender_left)]).
  vm_compute. reflexivity.
Defined.

(** X2.  The hub transmits only within the room an event concerns: every
    message a handler sends goes to the socket the event came from or to
    the sender or a receiver of that room. *)
Theorem recipients_in_room env ev h h' out x m :
  handle env ev h = Some (h', out) → (x, m) ∈ out →
  x = socket_of ev h ∨
  ∃ k room, room_of ev h = Some k ∧ rooms h !! k = Some room ∧ member x room.
Proof.
  destruct ev as [|ws [|msg]|ws]; cbn [handle socket_of room_of].
  - intros [= _ <-] Hx. by apply elem_of_nil in Hx.
  - intros [= _ <-] Hx. by apply elem_of_nil in Hx.
  - unfold onMessage. case_bool_decide as Hreg.
    { destruct (getMeta h ws) as [meta|]; [|done]. cbn [mbind option_bind].
      intros [= _ <-] Hx. by apply elem_of_nil in Hx. }
    case_bool_decide as Hjoin.
    2:{ destruct (_ || _).
        - intros Hrun Hx. right.
          destruct (relay_recipients _ _ _ _ _ _ _ _ Hrun Hx)
            as (meta & n & room & Hm & Hn & Hroom & Hmem).
          exists n, room. rewrite Hm. cbn. done.
        - intros [= _ <-] Hx. by apply elem_of_nil in Hx. }
    intros Hj%join_cases.
    destruct Hj as [ |n room rs Hn Hn' Hr Hget Hcode
                    |n room rs meta ms' rcv notice Hn Hn' Hr Hget Hm Hd
                    |n r room rs meta Hn Hn' Hr Hr' Hrs Hcode Hget Hm].
    + intros Hx. by apply elem_of_nil in Hx.
    + intros [= -> _]%list_elem_of_singleton. by left.
    + assert (Hmem : ∀ y, member y room →
                ∃ k room0, m_room msg = Some k ∧ rooms h !! k = Some room0 ∧
                           member y room0).
      { intros y Hy. exists n, room. split_and!; [done| |done].
        by eapply getRoom_member. }
      rewrite !elem_of_app.
      apply demote_cases in Hd
        as [(old & mo & Hs & Hne & Hmo & -> & -> & ->)|(Hs & -> & -> & ->)].
      * intros [[= -> _]%list_elem_of_singleton
               |[[= -> _]%list_elem_of_singleton
                |[(y & [= -> _] & Hy)%list_elem_of_fmap
                 |[= -> _]%list_elem_of_singleton]]].
        -- right. apply Hmem. by left.
        -- by left.
        -- right. apply Hmem. apply Set_add_elem in Hy as [->|Hy]; [by left|by right].
        -- by left.
      * intros [Hx|[[= -> _]%list_elem_of_singleton
                |[(y & [= -> _] & Hy)%list_elem_of_fmap
                 |[= -> _]%list_elem_of_singleton]]].
        -- by apply elem_of_nil in Hx.
        -- by left.
        -- right. apply Hmem. by right.
        -- by left.
    + rewrite elem_of_app. intros [Hx|[= -> _]%list_elem_of_singleton]; [|by left].
      destruct (sender room); [|by apply elem_of_nil in Hx].
      apply list_elem_of_singleton in Hx as [= -> _]. by left.
  - unfold onClose. destruct (getMeta h ws) as [meta|] eqn:Hm; [|done].
    cbn [mbind option_bind].
    destruct (truthy (roomName meta)) eqn:Hrn; cbn [negb].
    2:{ intros [= _ <-] Hx. by apply elem_of_nil in Hx. }
    apply truthy_true in Hrn as (n & Hn & _). rewrite Hn. simpl (default _ _).
    destruct (rooms h !! n) as [room|] eqn:Hroom.
    2:{ intros [= _ <-] Hx. by apply elem_of_nil in Hx. }
    pose proof (leave_recipients env ws meta room x m) as Hl.
    destruct (leave env ws meta room) as [room' out']. intros [= _ <-] Hx.
    right. exists n, room. split_and!; [done..|]. by apply Hl.
Qed.

Lemma recipients_in_room_witness :
  1%nat = socket_of (Close 2) (hub_after takeover) ∨
  ∃ k room, room_of (Close 2) (hub_after takeover) = Some k ∧
            rooms (hub_after takeover) !! k = Some room ∧ member 1%nat room.
Proof.
  apply (recipients_in_room half (Close 2) (hub_after takeover)
           (hub_after (takeover ++ [(half, Close 2)]))
           [(1%nat, sender_left); (0%nat, sender_left)] 1%nat sender_left).
  - vm_compute. reflexivity.
  - apply list_elem_of_here.
Defined.

(* ------------------------------------------------------------------ *)
(** ** TypeErrors *)




(** X4.  The demotion reads the side table without a guard.  When the
    sender recorded in a room has no entry in the side table (it joined
    a second room and disconnected), a sender join of another session
    for that room raises. *)
Theorem departed_sender_raises env ws msg h n room old :
  m_type msg = "join" → m_room msg = Some n → n ≠ "" →
  m_role msg = Some "sender" →
  rooms h !! n = Some room → sender room = Some old → old ≠ ws →
  getMeta h old = None → is_Some (getMeta h ws) →
  handle env (Message ws (Json msg)) h = None.
Proof.
  intros Ht Hn Hn' Hr Hroom Hold Hne Hgone [meta Hm].
  rewrite (onMessage_join _ _ _ _ Ht). unfold join.
  pass_guard (m_room msg). pass_guard (m_role msg).
  cbn [negb orb]. rewrite Hn, Hr. simpl (default _ _).
  rewrite (getRoom_known _ _ _ _ Hroom). unfold denied. rewrite Hr.
  rewrite (bool_decide_eq_false_2 (Some "sender" = Some "receiver")) by done.
  cbn [andb]. rewrite Hm. cbn [mbind option_bind].
  rewrite bool_decide_eq_true_2 by done.
  unfold demote. rewrite Hold, bool_decide_eq_true_2 by done.
  rewrite lookup_insert_ne by done. unfold getMeta in Hgone. by rewrite Hgone.
Qed.

Lemma departed_sender_raises_witness :
  run departed_sender init = Some (hub_after departed_sender, sent_during departed_sender) ∧
  handle half (Message 1 (Json (join_msg (Some "a") (Some "sender") None)))
    (hub_after departed_sender) = None.
Proof.
  split; [vm_compute; reflexivity|].
  apply (departed_sender_raises half 1%nat _ (hub_after departed_sender) "a"
           (mkRoom (Some 0%nat) [] "5500") 0%nat);
    first [ vm_compute; reflexivity | vm_compute; discriminate | by eexists ].
Defined.

(** X5.  As long as no session joins twice, the registry holds no
    departed socket: the sender and every receiver of a registered room
    is a connected session whose room name is the room's. *)
Theorem members_are_live evs h out n room x :
  always first_join evs init = true → run evs init = Some (h, out) →
  rooms h !! n = Some room → member x room →
  ∃ meta, getMeta h x = Some meta ∧ roomName meta = Some n.
Proof.
  intros Hg Hrun Hroom Hmem.
  pose proof (consistent_reachable evs h out Hg Hrun) as Hc.
  destruct Hmem as [Hs|Hx].
  - destruct (sender_meta h Hc _ _ _ Hroom Hs) as (m & ? & ? & _). by exists m.
  - destruct (receiver_meta h Hc _ _ _ Hroom Hx) as (m & ? & ? & _). by exists m.
Qed.

Lemma members_are_live_witness :
  ∃ meta, getMeta (hub_after takeover) 0%nat = Some meta ∧
          roomName meta = Some "home".
Proof.
  apply (members_are_live takeover (hub_after takeover) (sent_during takeover) "home"
           (mkRoom (Some 2%nat) [1%nat; 0%nat] "5500") 0%nat);
    [vm_compute; reflexivity..|].
  right. apply list_elem_of_further, list_elem_of_here.
Defined.

(* ------------------------------------------------------------------ *)
(** ** Admission, case by case *)

(** X6.  The whole effect of a refused receiver join, from any socket:
    the reply is join-denied, with reason "Room code required" when the
    code is missing or empty and "Invalid room code" otherwise; no
    session changes; no room other than the named one changes; the
    named room is unchanged if it was registered and is registered, with
    no sender, no receivers and a fresh code, if it was not. *)
Theorem refusal_effect env ws msg h n :
  m_type msg = "join" → m_room msg = Some n → n ≠ "" →
  m_role msg = Some "receiver" →
  m_code msg ≠ Some (code (getRoom (Math_random env) n (rooms h)).1) →
  ∃ h' reason,
    handle env (Message ws (Json msg)) h = Some (h', [(ws, join_denied reason)]) ∧
    (absent (m_code msg) → reason = "Room code required") ∧
    (¬ absent (m_code msg) → reason = "Invalid room code") ∧
    socketMeta h' = socketMeta h ∧ sockets h' = sockets h ∧
    (∀ k, k ≠ n → rooms h' !! k = rooms h !! k) ∧
    match rooms h !! n with
    | Some room => rooms h' !! n = Some room
    | None => rooms h' !! n
              = Some (mkRoom None [] (generateRoomCode (Math_random env)))
    end.
Proof.
  intros Ht Hn Hn' Hr Hcode.
  rewrite (onMessage_join _ _ _ _ Ht). unfold join.
  pass_guard (m_room msg). pass_guard (m_role msg).
  cbn [negb orb]. rewrite Hn. simpl (default _ _).
  destruct (getRoom (Math_random env) n (rooms h)) as [room rs] eqn:Hget.
  cbn [fst] in Hcode. unfold denied.
  rewrite bool_decide_eq_true_2 by done.
  rewrite bool_decide_eq_false_2 by done. cbn [andb negb].
  eexists _, _. split; [reflexivity|]. cbn [socketMeta sockets rooms set_rooms].
  split_and!; try done.
  - intros Ha%truthy_false. by rewrite Ha.
  - intros Ha. destruct (truthy (m_code msg)) eqn:E; [done|].
    by apply truthy_false in E.
  - intros k Hk. apply getRoom_cases in Hget as [[_ ->]|(_ & _ & ->)]; [done|].
    by apply lookup_insert_ne.
  - apply getRoom_cases in Hget as [[Hroom ->]|(Hfresh & -> & ->)].
    + by rewrite Hroom.
    + rewrite Hfresh. apply lookup_insert_eq.
Qed.

Lemma refusal_effect_witness :
  ∃ h' reason,
    handle half (Message 0 (Json (join_msg (Some "home") (Some "receiver") (Some "0000"))))
      (hub_after takeover) = Some (h', [(0%nat, join_denied reason)]) ∧
    reason = "Invalid room code" ∧ h' = hub_after takeover.
Proof.
  destruct (refusal_effect half 0%nat
              (join_msg (Some "home") (Some "receiver") (Some "0000"))
              (hub_after takeover) "home")
    as (h' & reason & Hrun & _ & Hreason & _);
    [reflexivity|reflexivity|discriminate|reflexivity|vm_compute; discriminate|].
  exists h', reason. split; [done|]. split.
  - apply Hreason. intros [?|?]; discriminate.
  - vm_compute in Hrun. by injection Hrun as <- _.
Defined.

(** X7.  The access code is compared for the role "receiver" only.  The
    outcome of a join with any other role does not depend on the code it
    carries, and such a join is never answered with join-denied. *)
Theorem code_only_for_receivers env ws msg h c :
  m_type msg = "join" → m_role msg ≠ Some "receiver" →
  handle env (Message ws (Json (with_code msg c))) h
  = handle env (Message ws (Json msg)) h
  ∧ ∀ h' out x m, handle env (Message ws (Json msg)) h = Some (h', out) →
      (x, m) ∈ out → m_type m ≠ "join-denied".
Proof.
  intros Ht Hr. split.
  - cbn [handle]. unfold onMessage. cbn [with_code m_type].
    rewrite Ht. rewrite bool_decide_eq_false_2 by done.
    rewrite bool_decide_eq_true_2 by done.
    unfold join, denied. cbn [with_code m_room m_role m_code].
    rewrite (bool_decide_eq_false_2 (m_role msg = Some "receiver")) by done.
    reflexivity.
  - intros h' out x m. rewrite (onMessage_join _ _ _ _ Ht).
    intros Hj%join_cases.
    destruct Hj as [ |n room rs Hn Hn' Hr' Hget Hcode
                    |n room rs meta ms' rcv notice Hn Hn' Hr' Hget Hm Hd
                    |n r room rs meta Hn Hn' Hr' Hr'' Hrs Hcode Hget Hm].
    + by intros ?%elem_of_nil.
    + congruence.
    + rewrite !elem_of_app.
      intros [Hx|[[= _ ->]%list_elem_of_singleton
                |[(y & [= _ ->] & Hy)%list_elem_of_fmap
                 |[= _ ->]%list_elem_of_singleton]]]; try done.
      apply demote_cases in Hd
        as [(old & mo & _ & _ & _ & _ & _ & ->)|(_ & _ & _ & ->)].
      * by apply list_elem_of_singleton in Hx as [= _ ->].
      * by apply elem_of_nil in Hx.
    + rewrite elem_of_app. intros [Hx|[= _ ->]%list_elem_of_singleton]; [|done].
      destruct (sender room); [|by apply elem_of_nil in Hx].
      by apply list_elem_of_singleton in Hx as [= _ ->].
Qed.

Lemma code_only_for_receivers_witness :
  handle half (Message 0 (Json (with_code (join_msg (Some "home") (Some "sender") None)
                                  (Some "0000"))))
    (hub_after [(half, Connection)])
  = handle half (Message 0 (Json (join_msg (Some "home") (Some "sender") None)))
      (hub_after [(half, Connection)]).
Proof.
  apply (code_only_for_receivers half 0%nat
           (join_msg (Some "home") (Some "sender") None)
           (hub_after [(half, Connection)]) (Some "0000"));
    [reflexivity|discriminate].
Defined.

(** X8.  A join whose role is a non-empty string other than "sender" and
    "receiver" is accepted without a code: the session is stored among
    the receivers of the room, its role is the string it sent, and the
    join is confirmed with joined. *)
Theorem other_role_joins_as_receiver env ws msg h n r meta :
  m_type msg = "join" → m_room msg = Some n → n ≠ "" →
  m_role msg = Some r → r ≠ "" → r ≠ "sender" → r ≠ "receiver" →
  getMeta h ws = Some meta →
  ∃ h' out room',
    handle env (Message ws (Json msg)) h = Some (h', out) ∧
    rooms h' !! n = Some room' ∧ ws ∈ receivers room' ∧
    getMeta h' ws = Some (mkMeta (Some r) (peerId meta) (Some n)) ∧
    last out = Some (ws, joined r).
Proof.
  intros Ht Hn Hn' Hr Hr' Hns Hnr Hm.
  rewrite (onMessage_join _ _ _ _ Ht). unfold join.
  pass_guard (m_room msg). pass_guard (m_role msg).
  cbn [negb orb]. rewrite Hn, Hr. simpl (default _ _).
  destruct (getRoom (Math_random env) n (rooms h)) as [room rs] eqn:Hget.
  unfold denied. rewrite Hr.
  rewrite (bool_decide_eq_false_2 (Some r = Some "receiver")) by congruence.
  cbn [andb]. rewrite Hm. cbn [mbind option_bind].
  rewrite bool_decide_eq_false_2 by done.
  eexists _, _, _. split; [reflexivity|].
  unfold getMeta. cbn [rooms socketMeta].
  split_and!.
  - apply lookup_insert_eq.
  - cbn. apply Set_add_elem. by left.
  - by rewrite lookup_insert_eq.
  - apply last_snoc.
Qed.

Lemma other_role_joins_as_receiver_witness :
  ∃ h' out room',
    handle half (Message 3 (Json (join_msg (Some "home") (Some "viewer") None)))
      (hub_after (takeover ++ [(half, Connection)])) = Some (h', out) ∧
    rooms h' !! "home" = Some room' ∧ 3%nat ∈ receivers room' ∧
    getMeta h' 3%nat = Some (mkMeta (Some "viewer") None (Some "home")) ∧
    last out = Some (3%nat, joined "viewer").
Proof.
  apply (other_role_joins_as_receiver half 3%nat
           (join_msg (Some "home") (Some "viewer") None)
           (hub_after (takeover ++ [(half, Connection)])) "home" "viewer"
           (mkMeta None None None));
    first [ reflexivity | discriminate | vm_compute; reflexivity ].
Defined.

(** X9.  A receiver that supplies the code of a registered room is
    admitted: it is appended to the receivers (unless already there),
    the sender and the code of the room are unchanged, the session
    records role and room name and keeps its identity, no other session
    and no other room changes, and only the joining socket is sent
    anything: sender-ready and joined if the room has a sender, joined
    alone if it has none. *)
Theorem receiver_admission env ws msg h n room meta :
  m_type msg = "join" → m_room msg = Some n → n ≠ "" →
  m_role msg = Some "receiver" →
  rooms h !! n = Some room → m_code msg = Some (code room) →
  getMeta h ws = Some meta →
  ∃ h' out room',
    handle env (Message ws (Json msg)) h = Some (h', out) ∧
    rooms h' !! n = Some room' ∧
    sender room' = sender room ∧ code room' = code room ∧
    (ws ∈ receivers room → receivers room' = receivers room) ∧
    (ws ∉ receivers room → receivers room' = receivers room ++ [ws]) ∧
    getMeta h' ws = Some (mkMeta (Some "receiver") (peerId meta) (Some n)) ∧
    (∀ x, x ≠ ws → getMeta h' x = getMeta h x) ∧
    (∀ k, k ≠ n → rooms h' !! k = rooms h !! k) ∧
    (∀ x m, (x, m) ∈ out → x = ws) ∧
    (is_Some (sender room) → out = [(ws, sender_ready); (ws, joined "receiver")]) ∧
    (sender room = None → out = [(ws, joined "receiver")]).
Proof.
  intros Ht Hn Hn' Hr Hroom Hcode Hm.
  rewrite (onMessage_join _ _ _ _ Ht). unfold join.
  pass_guard (m_room msg). pass_guard (m_role msg).
  cbn [negb orb]. rewrite Hn, Hr. simpl (default _ _).
  rewrite (getRoom_known _ _ _ _ Hroom). unfold denied. rewrite Hr, Hcode.
  rewrite !bool_decide_eq_true_2 by done. cbn [andb negb].
  rewrite Hm. cbn [mbind option_bind].
  rewrite bool_decide_eq_false_2 by done.
  eexists _, _, _. split; [reflexivity|].
  unfold getMeta. cbn [rooms socketMeta].
  split_and!.
  - apply lookup_insert_eq.
  - done.
  - done.
  - intros Hin. cbn. unfold Set_add. by rewrite bool_decide_eq_true_2.
  - intros Hin. cbn. unfold Set_add. by rewrite bool_decide_eq_false_2.
  - by rewrite lookup_insert_eq.
  - intros x Hx. by rewrite lookup_insert_ne.
  - intros k Hk. by rewrite lookup_insert_ne.
  - intros x m. rewrite elem_of_app.
    intros [Hx|[= -> _]%list_elem_of_singleton]; [|done].
    destruct (sender room); [|by apply elem_of_nil in Hx].
    by apply list_elem_of_singleton in Hx as [= -> _].
  - by intros [s ->].
  - by intros ->.
Qed.

Lemma receiver_admission_witness :
  ∃ h' out room',
    handle half (Message 3 (Json (join_msg (Some "home") (Some "receiver") (Some "5500"))))
      (hub_after (takeover ++ [(half, Connection)])) = Some (h', out) ∧
    rooms h' !! "home" = Some room' ∧
    receivers room' = [1%nat; 0%nat; 3%nat] ∧
    out = [(3%nat, sender_ready); (3%nat, joined "receiver")].
Proof.
  destruct (receiver_admission half 3%nat
              (join_msg (Some "home") (Some "receiver") (Some "5500"))
              (hub_after (takeover ++ [(half, Connection)])) "home"
              (mkRoom (Some 2%nat) [1%nat; 0%nat] "5500") (mkMeta None None None))
    as (h' & out & room' & Hrun & Hroom & _ & _ & _ & Hnew & _ & _ & _ & _ & Hout & _);
    [reflexivity|reflexivity|discriminate|reflexivity|vm_compute; reflexivity
    |reflexivity|vm_compute; reflexivity|].
  exists h', out, room'. split_and!; [done..| |].
  - apply Hnew. cbn. intros H.
    apply elem_of_cons in H as [H|H]; [discriminate|].
    apply elem_of_cons in H as [H|H]; [discriminate|].
    by apply elem_of_nil in H.
  - apply Hout. by eexists.
Defined.

(** X10.  The sender of a room that joins it again as sender changes
    nothing: no demotion takes place, the hub is the same afterwards,
    and the room code, a sender-ready for every receiver and the
    confirmation are transmitted again. *)
Theorem sender_rejoin env ws msg h n room meta :
  m_type msg = "join" → m_room msg = Some n → n ≠ "" →
  m_role msg = Some "sender" →
  rooms h !! n = Some room → sender room = Some ws →
  getMeta h ws = Some meta → role meta = Some "sender" → roomName meta = Some n →
  handle env (Message ws (Json msg)) h
  = Some (h, [(ws, room_code (code room))]
               ++ map (λ x, (x, sender_ready)) (receivers room)
               ++ [(ws, joined "sender")]).
Proof.
  intros Ht Hn Hn' Hr Hroom Hs Hm Hrole Hname.
  rewrite (onMessage_join _ _ _ _ Ht). unfold join.
  pass_guard (m_room msg). pass_guard (m_role msg).
  cbn [negb orb]. rewrite Hn, Hr. simpl (default _ _).
  rewrite (getRoom_known _ _ _ _ Hroom). unfold denied. rewrite Hr.
  rewrite (bool_decide_eq_false_2 (Some "sender" = Some "receiver")) by done.
  cbn [andb]. rewrite Hm. cbn [mbind option_bind].
  rewrite bool_decide_eq_true_2 by done.
  unfold demote. rewrite Hs. rewrite bool_decide_eq_false_2 by (intros ?; done).
  cbn [mbind option_bind].
  assert (set_role (Some "sender") (set_roomName (Some n) meta) = meta) as ->.
  { destruct meta; cbn in *. by subst. }
  unfold getMeta in Hm. rewrite (insert_id _ _ _ Hm).
  assert (mkRoom (Some ws) (receivers room) (code room) = room) as ->.
  { destruct room; cbn in *. by subst. }
  rewrite (insert_id _ _ _ Hroom). by destruct h.
Qed.

Lemma sender_rejoin_witness :
  handle half (Message 2 (Json (join_msg (Some "home") (Some "sender") None)))
    (hub_after takeover)
  = Some (hub_after takeover,
          [(2%nat, room_code "5500"); (1%nat, sender_ready); (0%nat, sender_ready);
           (2%nat, joined "sender")]).
Proof.
  apply (sender_rejoin half 2%nat (join_msg (Some "home") (Some "sender") None)
           (hub_after takeover) "home" (mkRoom (Some 2%nat) [1%nat; 0%nat] "5500")
           (mkMeta (Some "sender") None (Some "home")));
    first [ reflexivity | discriminate | vm_compute; reflexivity ].
Defined.

(* ------------------------------------------------------------------ *)
(** ** Sequences of operations *)

(** X11.  The last registration wins.  Two register-id messages of a
    session leave the hub that the second alone leaves: the session's
    identity is the [peerId] of the second (none if it carries none),
    its role and room name, the other sessions and the registry are
    unchanged, and nothing is transmitted. *)
Theorem last_registration_wins env1 env2 ws m1 m2 h meta :
  m_type m1 = "register-id" → m_type m2 = "register-id" →
  getMeta h ws = Some meta →
  ∃ h',
    run [(env1, Message ws (Json m1)); (env2, Message ws (Json m2))] h = Some (h', []) ∧
    run [(env2, Message ws (Json m2))] h = Some (h', []) ∧
    getMeta h' ws = Some (mkMeta (role meta) (m_peerId m2) (roomName meta)) ∧
    (∀ x, x ≠ ws → getMeta h' x = getMeta h x) ∧
    rooms h' = rooms h ∧ sockets h' = sockets h.
Proof.
  intros H1 H2 Hm. cbn [run handle]. unfold onMessage.
  rewrite H1, H2, !bool_decide_eq_true_2 by done.
  rewrite Hm. cbn [mbind option_bind].
  unfold getMeta at 1. cbn [socketMeta set_socketMeta].
  rewrite lookup_insert_eq. cbn [mbind option_bind].
  rewrite insert_insert_eq. unfold set_peerId. cbn [role roomName].
  eexists. split; [reflexivity|]. split; [reflexivity|].
  unfold getMeta. cbn [socketMeta rooms sockets set_socketMeta].
  split_and!; [by rewrite lookup_insert_eq| |done..].
  intros x Hx. by rewrite lookup_insert_ne.
Qed.

Lemma last_registration_wins_witness :
  ∃ h',
    run [(half, Message 1 (Json (register_id "c")));
         (half, Message 1 (Json (register_id "d")))] (hub_after takeover)
      = Some (h', []) ∧
    identity h' 1%nat = Some "d".
Proof.
  destruct (last_registration_wins half half 1%nat (register_id "c") (register_id "d")
              (hub_after takeover) (mkMeta (Some "receiver") (Some "b") (Some "home")))
    as (h' & Hrun & _ & Hm & _); [reflexivity|reflexivity|vm_compute; reflexivity|].
  exists h'. split; [done|]. unfold identity. by rewrite Hm.
Defined.

Lemma getRoom_new random n rs :
  rs !! n = None →
  getRoom random n rs =
    (mkRoom None [] (generateRoomCode random),
     <[n := mkRoom None [] (generateRoomCode random)]> rs).
Proof. intros H. unfold getRoom. by rewrite H. Qed.

(** X12.  A room lives as long as its members.  When a session joins an
    unregistered room with any accepted role and then disconnects, the
    registry is what it was before the join, and the side table has lost
    the session only. *)
Theorem join_close_round_trip env1 env2 ws msg h n r meta :
  m_type msg = "join" → m_room msg = Some n → n ≠ "" →
  m_role msg = Some r → r ≠ "" →
  (r = "receiver" → m_code msg = Some (generateRoomCode (Math_random env1))) →
  rooms h !! n = None → getMeta h ws = Some meta →
  ∃ h' out,
    run [(env1, Message ws (Json msg)); (env2, Close ws)] h = Some (h', out) ∧
    rooms h' = rooms h ∧
    socketMeta h' = delete ws (socketMeta h) ∧
    sockets h' = sockets h.
Proof.
  intros Ht Hn Hn' Hr Hr' Hcode Hfresh Hm.
  cbn [run]. rewrite (onMessage_join _ _ _ _ Ht). unfold join.
  pass_guard (m_room msg). pass_guard (m_role msg).
  cbn [negb orb]. rewrite Hn, Hr. simpl (default _ _).
  rewrite (getRoom_new _ _ _ Hfresh).
  assert (denied msg (mkRoom None [] (generateRoomCode (Math_random env1))) = false)
    as ->.
  { unfold denied. rewrite Hr. destruct (decide (r = "receiver")) as [->|Hne].
    - rewrite Hcode by done. by rewrite !bool_decide_eq_true_2.
    - by rewrite (bool_decide_eq_false_2 (Some r = _)) by congruence. }
  rewrite Hm. cbn [mbind option_bind].
  assert (Hback : delete n (<[n := mkRoom None [] (generateRoomCode (Math_random env1))]>
                              (rooms h)) = rooms h).
  { rewrite delete_insert_eq. by apply delete_id. }
  destruct (decide (r = "sender")) as [->|Hns].
  - rewrite bool_decide_eq_true_2 by done. cbn [demote sender mbind option_bind receivers].
    cbn [handle]. unfold onClose, getMeta. cbn [socketMeta rooms sockets].
    rewrite lookup_insert_eq. cbn [mbind option_bind set_role set_roomName roomName].
    pass_guard (Some n). cbn [negb default]. simpl (default _ _).
    rewrite lookup_insert_eq.
    rewrite leave_sender by done. cbn [set_sender receivers code].
    unfold cleanup. cbn [sender receivers length].
    rewrite !bool_decide_eq_true_2 by done. cbn [andb mbind option_bind].
    eexists _, _. split; [reflexivity|]. cbn [rooms socketMeta sockets].
    rewrite !delete_insert_eq. split_and!; [|done..].
    by apply delete_id.
  - rewrite bool_decide_eq_false_2 by done.
    cbn [handle mbind option_bind]. unfold onClose, getMeta.
    cbn [socketMeta rooms sockets].
    rewrite lookup_insert_eq. cbn [mbind option_bind set_role set_roomName roomName].
    pass_guard (Some n). cbn [negb]. simpl (default _ _).
    rewrite lookup_insert_eq.
    rewrite leave_receiver by (cbn; intros [[= ?] _]; done).
    cbn [set_receivers sender receivers code].
    assert (Set_delete ws (Set_add ws []) = []) as ->.
    { unfold Set_add, Set_delete. rewrite bool_decide_eq_false_2 by apply not_elem_of_nil.
      cbn. by rewrite decide_False by (intros ?; done). }
    unfold cleanup. cbn [sender receivers length].
    rewrite !bool_decide_eq_true_2 by done. cbn [andb mbind option_bind].
    eexists _, _. split; [reflexivity|]. cbn [rooms socketMeta sockets].
    rewrite !delete_insert_eq. split_and!; [|done..].
    by apply delete_id.
Qed.

Lemma join_close_round_trip_witness :
  ∃ h' out,
    run [(half, Message 0 (Json (join_msg (Some "den") (Some "sender") None)));
         (half, Close 0)] (hub_after [(half, Connection)]) = Some (h', out) ∧
    rooms h' = rooms (hub_after [(half, Connection)]) ∧
    socketMeta h' = delete 0%nat (socketMeta (hub_after [(half, Connection)])) ∧
    sockets h' = sockets (hub_after [(half, Connection)]).
Proof.
  apply (join_close_round_trip half half 0%nat
           (join_msg (Some "den") (Some "sender") None)
           (hub_after [(half, Connection)]) "den" "sender" (mkMeta None None None));
    first [ reflexivity | discriminate | vm_compute; reflexivity ].
Defined.

(** X13.  The code of a room survives its sender as long as a receiver
    stays.  When the sender disconnects and another session joins as
    sender, the room keeps its code and its receivers, the new sender is
    sent that code, every receiver is sent sender-ready, and a receiver
    that was open at the disconnect is sent sender-left before it. *)
Theorem code_survives_sender_restart env1 env2 S ws msg h n room mS meta :
  rooms h !! n = Some room → sender room = Some S → receivers room ≠ [] →
  getMeta h S = Some mS → role mS = Some "sender" → roomName mS = Some n →
  n ≠ "" → ws ≠ S → getMeta h ws = Some meta →
  m_type msg = "join" → m_room msg = Some n → m_role msg = Some "sender" →
  ∃ h' out,
    run [(env1, Close S); (env2, Message ws (Json msg))] h = Some (h', out) ∧
    rooms h' !! n = Some (mkRoom (Some ws) (receivers room) (code room)) ∧
    (ws, room_code (code room)) ∈ out ∧
    (∀ x, x ∈ receivers room → (x, sender_ready) ∈ out) ∧
    (∀ x, x ∈ receivers room → OPEN env1 x = true →
       sent_before x sender_left sender_ready out).
Proof.
  intros Hroom Hs Hrcv HmS Hrole Hname Hn' Hne Hm Ht Hn Hr.
  cbn [run handle]. unfold onClose. rewrite HmS. cbn [mbind option_bind].
  rewrite Hname. pass_guard (Some n). cbn [negb]. simpl (default _ _).
  rewrite Hroom. rewrite leave_sender by done.
  assert (cleanup n (set_sender None room) (rooms h)
          = <[n := set_sender None room]> (rooms h)) as ->.
  { unfold cleanup. cbn [set_sender sender receivers].
    rewrite (bool_decide_eq_false_2 (length (receivers room) = 0%nat)).
    - by rewrite andb_false_r.
    - intros E. by apply length_zero_iff_nil in E. }
  cbn [mbind option_bind].
  unfold onMessage. rewrite Ht.
  rewrite bool_decide_eq_false_2 by done. rewrite bool_decide_eq_true_2 by done.
  unfold join. pass_guard (m_room msg). pass_guard (m_role msg).
  cbn [negb orb]. rewrite Hn, Hr. simpl (default _ _). cbn [rooms].
  rewrite (getRoom_known _ _ _ (set_sender None room)) by apply lookup_insert_eq.
  unfold denied. rewrite Hr.
  rewrite (bool_decide_eq_false_2 (Some "sender" = Some "receiver")) by done.
  cbn [andb]. unfold getMeta in *. cbn [socketMeta].
  rewrite lookup_delete_ne by done. rewrite Hm. cbn [mbind option_bind].
  rewrite bool_decide_eq_true_2 by done.
  cbn [demote set_sender sender receivers code mbind option_bind].
  eexists _, _. split; [reflexivity|]. cbn [rooms].
  rewrite app_nil_r. cbn [app].
  split_and!.
  - rewrite insert_insert_eq. apply lookup_insert_eq.
  - apply elem_of_app. right. apply list_elem_of_here.
  - intros x Hx. apply elem_of_app. right. apply list_elem_of_further.
    apply elem_of_app. left. apply list_elem_of_fmap. by exists x.
  - intros x Hx Hopen.
    assert (Hl : (x, sender_left) ∈
              map (λ y, (y, sender_left)) (filter (λ y, OPEN env1 y) (receivers room))).
    { apply list_elem_of_fmap. exists x. split; [done|].
      apply list_elem_of_filter. split; [by apply Is_true_true|done]. }
    apply list_elem_of_split in Hl as (l1 & l2 & ->).
    assert (Hr' : (x, sender_ready) ∈ map (λ y, (y, sender_ready)) (receivers room)).
    { apply list_elem_of_fmap. by exists x. }
    apply list_elem_of_split in Hr' as (l3 & l4 & ->).
    exists l1, (l2 ++ (ws, room_code (code room)) :: l3), (l4 ++ [(ws, joined "sender")]).
    rewrite <- !app_assoc. by cbn [app].
Qed.

Lemma code_survives_sender_restart_witness :
  ∃ h' out,
    run [(half, Close 2);
         (all_open (1 # 10)%Q,
          Message 3 (Json (join_msg (Some "home") (Some "sender") None)))]
      (hub_after (takeover ++ [(half, Connection)])) = Some (h', out) ∧
    (3%nat, room_code "5500") ∈ out.
Proof.
  destruct (code_survives_sender_restart half (all_open (1 # 10)%Q) 2%nat 3%nat
              (join_msg (Some "home") (Some "sender") None)
              (hub_after (takeover ++ [(half, Connection)])) "home"
              (mkRoom (Some 2%nat) [1%nat; 0%nat] "5500")
              (mkMeta (Some "sender") None (Some "home")) (mkMeta None None None))
    as (h' & out & Hrun & _ & Hcode & _);
    first [ reflexivity | discriminate | vm_compute; reflexivity | idtac ].
  by exists h', out.
Defined.

(** The receivers of a room stay duplicate free. *)
Lemma receivers_distinct_step env ev h h' out :
  receivers_distinct h → handle env ev h = Some (h', out) → receivers_distinct h'.
Proof.
  intros Hd Hstep n room' Hroom'.
  destruct ev as [|ws [|msg]|ws]; cbn [handle] in Hstep.
  - injection Hstep as <- _. by eapply Hd.
  - injection Hstep as <- _. by eapply Hd.
  - unfold onMessage in Hstep. case_bool_decide as Hreg.
    { destruct (getMeta h ws) as [meta|]; [|done]. injection Hstep as <- _.
      by eapply Hd. }
    case_bool_decide as Hjoin.
    2:{ assert (h' = h) as ->; [|by eapply Hd].
        destruct (_ || _); [by eapply relay_same|by injection Hstep]. }
    apply join_cases in Hstep.
    destruct Hstep as [ |k room rs Hn Hn' Hr Hget Hcode
                    |k room rs meta ms' rcv notice Hn Hn' Hr Hget Hm Hdm
                    |k r room rs meta Hn Hn' Hr Hr' Hrs Hcode Hget Hm];
      cbn [rooms set_rooms] in Hroom'.
    + by eapply Hd.
    + apply getRoom_cases in Hget as [[_ ->]|(_ & -> & ->)]; [by eapply Hd|].
      rewrite lookup_insert in Hroom'. case_decide; [|by eapply Hd].
      injection Hroom' as <-. apply NoDup_nil_2.
    + assert (Hroom : NoDup (receivers room)).
      { apply getRoom_cases in Hget as [[Hroom _]|(_ & -> & _)];
          [by eapply Hd|apply NoDup_nil_2]. }
      rewrite lookup_insert in Hroom'. case_decide; [|by eapply Hd].
      injection Hroom' as <-. cbn.
      apply demote_cases in Hdm
        as [(old & mo & _ & _ & _ & _ & -> & _)|(_ & _ & -> & _)];
        [by apply Set_add_NoDup|done].
    + assert (Hroom : NoDup (receivers room)).
      { apply getRoom_cases in Hget as [[Hroom _]|(_ & -> & _)];
          [by eapply Hd|apply NoDup_nil_2]. }
      rewrite lookup_insert in Hroom'. case_decide; [|by eapply Hd].
      injection Hroom' as <-. cbn. by apply Set_add_NoDup.
  - unfold onClose in Hstep. destruct (getMeta h ws) as [meta|]; [|done].
    cbn [mbind option_bind] in Hstep.
    destruct (negb _); [injection Hstep as <- _; by eapply Hd|].
    destruct (rooms h !! default "" (roomName meta)) as [room|] eqn:Hroom;
      [|injection Hstep as <- _; by eapply Hd].
    assert (NoDup (receivers (leave env ws meta room).1)) as Hl.
    { unfold leave. destruct (_ && _); cbn; [by eapply Hd|].
      apply Set_delete_NoDup. by eapply Hd. }
    destruct (leave env ws meta room) as [room1 out1]. injection Hstep as <- _.
    cbn [rooms] in Hroom'.
    destruct (decide (n = default "" (roomName meta))) as [->|Hne].
    + destruct (cleanup_same (default "" (roomName meta)) room1 (rooms h))
        as [[Hc _]|[Hc _]]; [|congruence].
      replace room' with room1 by congruence. done.
    + rewrite cleanup_other in Hroom' by done. by eapply Hd.
Qed.

(** X14.  A broadcast reaches every open receiver once.  In every hub
    the server can reach, a negotiation message without [to] from a
    sender is transmitted to exactly the open receivers of its room, and
    to none of them twice. *)
Theorem broadcast_once evs h sent env ws msg meta n room :
  run evs init = Some (h, sent) →
  negotiation msg → absent (m_to msg) →
  getMeta h ws = Some meta → role meta = Some "sender" →
  roomName meta = Some n → n ≠ "" → rooms h !! n = Some room →
  ∃ out,
    handle env (Message ws (Json msg)) h = Some (h, out) ∧
    NoDup (fst <$> out) ∧
    ∀ x, x ∈ (fst <$> out) ↔ x ∈ receivers room ∧ OPEN env x = true.
Proof.
  intros Hrun Hneg Hto Hm Hrole Hn Hn' Hroom.
  assert (Hd : receivers_distinct h).
  { eapply (always_run any_event receivers_distinct); [| | |exact Hrun].
    - intros e v h0 h1 o Hd0 _. by apply receivers_distinct_step.
    - intros k r. cbn. by rewrite lookup_empty.
    - clear. generalize init. induction evs as [|[e v] evs IH]; intros h0; [done|].
      cbn. destruct (handle e v h0) as [[h1 o]|]; [apply IH|done]. }
  rewrite (onMessage_relay _ _ _ _ Hneg). unfold relay.
  rewrite Hm. cbn [mbind option_bind]. rewrite Hn. pass_guard (Some n).
  cbn [negb]. simpl (default _ _). rewrite Hroom.
  rewrite bool_decide_eq_true_2 by done.
  apply truthy_false in Hto. rewrite Hto.
  eexists. split; [reflexivity|].
  rewrite <- list_fmap_compose.
  assert (fst ∘ (λ x, (x, with_from msg (peerId meta))) = @id WebSocket) as -> by done.
  rewrite list_fmap_id. split.
  - apply NoDup_filter. by eapply Hd.
  - intros x. rewrite list_elem_of_filter. split.
    + intros [Ho Hx]. split; [done|]. by apply Is_true_true.
    + intros [Hx Ho]. split; [by apply Is_true_true|done].
Qed.

Lemma broadcast_once_witness :
  ∃ out,
    handle half (Message 2 (Json (offer None))) (hub_after takeover)
      = Some (hub_after takeover, out) ∧
    NoDup (fst <$> out) ∧
    ∀ x, x ∈ (fst <$> out) ↔ x ∈ [1%nat; 0%nat] ∧ OPEN half x = true.
Proof.
  apply (broadcast_once takeover (hub_after takeover) (sent_during takeover) half 2%nat
           (offer None) (mkMeta (Some "sender") None (Some "home")) "home"
           (mkRoom (Some 2%nat) [1%nat; 0%nat] "5500"));
    first [ vm_compute; reflexivity | discriminate | by left ].
Defined.

(* ------------------------------------------------------------------ *)
(** ** The code space *)




(* ------------------------------------------------------------------ *)
(** ** Local addresses and the network URL *)

Lemma getLocalIPs_inner cfgs ips :
  fold_left
    (λ ips cfg,
       if bool_decide (family cfg = "IPv4") && negb (internal cfg)
       then ips ++ [address cfg] else ips)
    cfgs ips
  = ips ++ (address <$> filter external_ipv4 cfgs).
Proof.
  revert ips. induction cfgs as [|cfg cfgs IH]; intros ips; cbn [fold_left].
  - by rewrite app_nil_r.
  - rewrite IH, filter_cons.
    destruct (decide (external_ipv4 cfg)) as [[Hf Hi]|Hno].
    + rewrite bool_decide_eq_true_2, Hi by done. cbn. by rewrite <- app_assoc.
    + assert (bool_decide (family cfg = "IPv4") && negb (internal cfg) = false) as ->;
        [|done].
      apply andb_false_iff. destruct (decide (family cfg = "IPv4")) as [Hf|Hf].
      * right. destruct (internal cfg) eqn:Hi; [done|]. by destruct Hno.
      * left. by apply bool_decide_eq_false.
Qed.

Lemma getLocalIPs_outer nets ips :
  fold_left
    (λ ips iface,
       match iface with
       | None => ips
       | Some cfgs =>
           fold_left
             (λ ips cfg,
                if bool_decide (family cfg = "IPv4") && negb (internal cfg)
                then ips ++ [address cfg] else ips)
             cfgs ips
       end)
    nets ips
  = ips ++ (address <$> filter external_ipv4 (configurations nets)).
Proof.
  revert ips. induction nets as [|[cfgs|] nets IH]; intros ips; cbn [fold_left].
  - by rewrite app_nil_r.
  - rewrite IH, getLocalIPs_inner. unfold configurations. cbn.
    rewrite filter_app, fmap_app. by rewrite <- app_assoc.
  - rewrite IH. done.
Qed.

(** X16.  [getLocalIPs] returns the addresses of the configurations that
    are IPv4 and not internal, in the order of the interfaces and of
    their configurations, and nothing else; an [undefined] interface is
    skipped. *)
Theorem getLocalIPs_external_ipv4 nets :
  getLocalIPs nets = address <$> filter external_ipv4 (configurations nets).
Proof. unfold getLocalIPs. by rewrite getLocalIPs_outer. Qed.

Lemma head_filter_find {A} (P : A → Prop) `{∀ x, Decision (P x)} (l : list A) :
  head (filter P l) = snd <$> list_find P l.
Proof.
  induction l as [|x l IH]; [done|]. rewrite filter_cons. cbn [list_find].
  destruct (decide (P x)); [done|]. rewrite IH.
  by destruct (list_find P l) as [[i y]|].
Qed.

(** X17.  The network URL is "https://", a host, ":" and the port.  The
    host is the address of the first external IPv4 configuration of the
    machine, and "localhost" exactly when there is none. *)
Theorem network_url_host nets port :
  getNetworkUrl (getLocalIPs nets) port
  = "https://"
    +:+ match list_find external_ipv4 (configurations nets) with
        | Some (_, cfg) => address cfg
        | None => "localhost"
        end
    +:+ ":" +:+ port.
Proof.
  unfold getLocalIPs. rewrite getLocalIPs_outer. cbn [app]. unfold getNetworkUrl.
  pose proof (head_filter_find external_ipv4 (configurations nets)) as Hh.
  destruct (filter external_ipv4 (configurations nets)) as [|cfg l]; cbn in *.
  - destruct (list_find _ _) as [[i y]|]; [done|]. reflexivity.
  - destruct (list_find _ _) as [[i y]|]; [|done]. cbn in Hh.
    injection Hh as <-. rewrite bool_decide_eq_true_2 by lia. reflexivity.
Qed.

(* ------------------------------------------------------------------ *)
(** ** The banner *)

Lemma units_app a b : units (a +:+ b) = units a ++ units b.
Proof.
  unfold units. induction a as [|c a IH]; [done|].
  change (String c a +:+ b) with (String c (a +:+ b)).
  cbn [list_ascii_of_string]. rewrite !fmap_cons, IH. done.
Qed.

Lemma jslength_app a b : jslength (a ++ b) = (jslength a + jslength b)%Z.
Proof. unfold jslength. rewrite length_app. lia. Qed.

Lemma jslength_nonneg a : (0 ≤ jslength a)%Z.
Proof. unfold jslength. lia. Qed.

Lemma js_repeat_char c count :
  (0 ≤ count)%Z →
  ∃ s, js_repeat [c] count = Some s ∧ jslength s = count.
Proof.
  intros Hc. unfold js_repeat. rewrite bool_decide_eq_false_2 by lia.
  eexists. split; [done|]. unfold jslength.
  rewrite length_join, fmap_replicate, sum_list_replicate. cbn [length]. lia.
Qed.

Lemma pad_fits width str :
  (jslength str ≤ width)%Z →
  ∃ s, pad width str = Some s ∧ jslength s = width ∧ str `prefix_of` s.
Proof.
  intros Hfit. unfold pad.
  destruct (js_repeat_char space (Z.max 0 (width - jslength str)))
    as (spaces & -> & Hlen); [lia|].
  cbn. eexists. split; [done|]. split.
  - rewrite jslength_app, Hlen. lia.
  - by exists spaces.
Qed.

Lemma Math_max_le a rest :
  (a ≤ Math_max a rest)%Z ∧ ∀ x, x ∈ rest → (x ≤ Math_max a rest)%Z.
Proof.
  unfold Math_max. revert a. induction rest as [|y rest IH]; intros a; cbn.
  - split; [lia|]. by intros x ?%elem_of_nil.
  - destruct (IH (Z.max a y)) as [H1 H2]. split; [lia|].
    intros x [->|Hx]%elem_of_cons; [lia|]. by apply H2.
Qed.

Lemma banner_urls_spec localIPs port :
  banner_urls localIPs port
  = ("Local", "https://localhost:" +:+ port)
    :: ((λ addr, ("Network", "https://" +:+ addr +:+ ":" +:+ port)) <$> localIPs).
Proof.
  unfold banner_urls.
  assert (∀ acc, fold_left
            (λ urls addr, urls ++ [("Network", "https://" +:+ addr +:+ ":" +:+ port)])
            localIPs acc
          = acc ++ ((λ addr, ("Network", "https://" +:+ addr +:+ ":" +:+ port)) <$> localIPs))
    as ->; [|done].
  induction localIPs as [|addr l IH]; intros acc; cbn.
  - by rewrite app_nil_r.
  - rewrite IH. by rewrite <- app_assoc.
Qed.

(** X18.  The banner is a rectangle.  [printBanner] never raises a
    RangeError; after the empty first line it prints a top border, the
    title, a separator, one row per URL and a bottom border, all of the
    same length [contentWidth + 6], and every URL appears in full in one
    of the rows. *)
Theorem banner_box_rectangular localIPs port :
  ∃ rows,
    printBanner_box localIPs port = Some ([] :: rows) ∧
    length rows = (5 + length localIPs)%nat ∧
    (∀ r, r ∈ rows →
       jslength r = (contentWidth (banner_urls localIPs port) + 6)%Z) ∧
    (∀ label url, (label, url) ∈ banner_urls localIPs port →
       ∃ r l1 l2, r ∈ rows ∧ r = l1 ++ units url ++ l2).
Proof.
  unfold printBanner_box.
  set (urls := banner_urls localIPs port). set (w := contentWidth urls).
  assert (Hw : (27 ≤ w)%Z ∧
               ∀ label url, (label, url) ∈ urls →
                 (jslength (units (label +:+ ":   " +:+ url)) + 4 ≤ w)%Z).
  { unfold w, contentWidth.
    destruct (Math_max_le (jslength (units "tiny-stream is running!"))
                (map (λ '(label, url), jslength (units (label +:+ ":   " +:+ url))) urls))
      as [H1 H2].
    split; [change (jslength (units "tiny-stream is running!")) with 23%Z in *; lia|].
    intros label url Hin.
    assert (jslength (units (label +:+ ":   " +:+ url))
            ≤ Math_max (jslength (units "tiny-stream is running!"))
                (map (λ '(label, url), jslength (units (label +:+ ":   " +:+ url))) urls))%Z;
      [|lia].
    apply H2. apply list_elem_of_fmap. by exists (label, url). }
  destruct Hw as [Hw27 Hwurl].
  destruct (js_repeat_char box_h (w + 2)) as (line & -> & Hline); [lia|].
  destruct (pad_fits w (units "  tiny-stream is running!")) as (title & -> & Htitle & _).
  { change (jslength (units "  tiny-stream is running!")) with 25%Z. lia. }
  cbn [mbind option_bind].
  assert (Hrow : ∀ label url, (label, url) ∈ urls →
            ∃ padded,
              pad w (units (" " +:+ (if bool_decide (label = "Local") then "Local:  "
                                     else "Network:") +:+ " " +:+ url)) = Some padded ∧
              jslength padded = w ∧
              ∃ l2, padded = units (" " +:+ (if bool_decide (label = "Local")
                                             then "Local:  " else "Network:") +:+ " ")
                             ++ units url ++ l2).
  { intros label url Hin. specialize (Hwurl label url Hin).
    assert (Hlabel : label = "Local" ∨ label = "Network").
    { unfold urls in Hin. rewrite banner_urls_spec in Hin.
      apply elem_of_cons in Hin as [[= -> _]|Hin]; [by left|].
      apply list_elem_of_fmap in Hin as (addr & [= -> _] & _). by right. }
    rewrite !units_app, !jslength_app in Hwurl.
    destruct (pad_fits w (units (" " +:+ (if bool_decide (label = "Local")
                                           then "Local:  " else "Network:") +:+ " " +:+ url)))
      as (padded & Hp & Hlen & [l2 Hpre]).
    { rewrite !units_app, !jslength_app.
      destruct Hlabel as [->| ->].
      - rewrite bool_decide_eq_true_2 by done.
        change (jslength (units " ")) with 1%Z.
        change (jslength (units "Local:  ")) with 8%Z.
        change (jslength (units "Local")) with 5%Z in Hwurl.
        change (jslength (units ":   ")) with 4%Z in Hwurl. lia.
      - rewrite bool_decide_eq_false_2 by done.
        change (jslength (units " ")) with 1%Z.
        change (jslength (units "Network:")) with 8%Z.
        change (jslength (units "Network")) with 7%Z in Hwurl.
        change (jslength (units ":   ")) with 4%Z in Hwurl. lia. }
    exists padded. split_and!; [done..|]. exists l2.
    rewrite Hpre. rewrite !units_app. by rewrite <- !app_assoc. }
  assert (Hrows : ∀ l, (∀ label url, (label, url) ∈ l → (label, url) ∈ urls) →
            ∃ rows,
            mapM (λ '(label, url),
                    padded ← pad w (units (" " +:+ (if bool_decide (label = "Local")
                                                    then "Local:  " else "Network:")
                                           +:+ " " +:+ url));
                    Some ([space; space; box_v; space] ++ padded ++ [space; box_v]))
                 l = Some rows ∧
            Forall2 (λ '(label, url) r,
                       jslength r = (w + 6)%Z ∧ ∃ l1 l2, r = l1 ++ units url ++ l2)
                    l rows).
  { induction l as [|[label url] l IH]; intros Hsub.
    - exists []. split; [done|]. constructor.
    - destruct IH as (rows & Hrows & Hall);
        [intros lb u Hin; apply Hsub; by apply list_elem_of_further|].
      destruct (Hrow label url) as (padded & Hp & Hlen & l2 & Hcontains);
        [apply Hsub, list_elem_of_here|].
      eexists. split.
      + apply mapM_Some. constructor.
        * rewrite Hp. reflexivity.
        * by apply mapM_Some.
      + constructor; [|done]. split.
        * rewrite !jslength_app, Hlen. unfold jslength. cbn [length]. lia.
        * exists ([space; space; box_v; space]
                  ++ units (" " +:+ (if bool_decide (label = "Local")
                                     then "Local:  " else "Network:") +:+ " ")),
            (l2 ++ [space; box_v]).
          rewrite Hcontains. by rewrite <- !app_assoc. }
  destruct (Hrows urls) as (rows & Hmap & Hall); [done|]. rewrite Hmap.
  clear Hrows.
 cbn [mbind option_bind app].
  eexists. split; [reflexivity|].
  split_and!.
  - cbn [length]. rewrite length_app. cbn [length].
    apply Forall2_length in Hall. unfold jsstring in *. rewrite <- Hall.
    unfold urls. rewrite banner_urls_spec. cbn [length]. rewrite length_fmap. lia.
  - intros r. rewrite !elem_of_cons, elem_of_app, list_elem_of_singleton.
    intros [->|[->|[->|[Hr| ->]]]].
    + unfold jslength in *. cbn [length]. rewrite ?length_app. cbn [length]. lia.
    + unfold jslength in *. cbn [length]. rewrite ?length_app. cbn [length]. lia.
    + unfold jslength in *. cbn [length]. rewrite ?length_app. cbn [length]. lia.
    + apply list_elem_of_lookup in Hr as [i Hi].
      destruct (Forall2_lookup_r _ _ _ _ _ Hall Hi) as ([label url] & _ & Hlen & _).
      done.
    + unfold jslength in *. cbn [length]. rewrite ?length_app. cbn [length]. lia.
  - intros label url Hin. apply list_elem_of_lookup in Hin as [i Hi].
    destruct (Forall2_lookup_l _ _ _ _ _ Hall Hi) as (r & Hr & _ & l1 & l2 & Hc).
    exists r, l1, l2. split; [|done].
    rewrite !elem_of_cons, elem_of_app. right. right. right. left.
    apply list_elem_of_lookup. by exists i.
Qed.

(* ------------------------------------------------------------------ *)
(** ** The certificate files *)

Lemma append_inj_l a b c : a +:+ b = a +:+ c → b = c.
Proof. induction a as [|x a IH]; [done|]. cbn. intros [= ?]. by apply IH. Qed.

Lemma CERT_PATH_not_KEY_PATH dirname : CERT_PATH dirname ≠ KEY_PATH dirname.
Proof.
  unfold CERT_PATH, KEY_PATH, path_join. intros E.
  apply append_inj_l in E. discriminate E.
Qed.

(** X19.  The certificate is generated once.  After [ensureCerts] the
    files at [CERT_PATH] and [KEY_PATH] hold the pair it returned and no
    other file has changed; a second call, whatever the generator would
    answer and whatever the local addresses are by then, returns the
    same pair and leaves the disk as it is. *)
Theorem ensureCerts_stable dirname generate generate' localIPs localIPs' disk :
  ∃ disk1 cert key,
    ensureCerts dirname generate localIPs disk = Some (disk1, (cert, key)) ∧
    disk1 !! CERT_PATH dirname = Some cert ∧
    disk1 !! KEY_PATH dirname = Some key ∧
    (∀ p, p ≠ CERT_PATH dirname → p ≠ KEY_PATH dirname → disk1 !! p = disk !! p) ∧
    ensureCerts dirname generate' localIPs' disk1 = Some (disk1, (cert, key)).
Proof.
  pose proof (CERT_PATH_not_KEY_PATH dirname) as Hne.
  assert (Hagain : ∀ d c k, d !! CERT_PATH dirname = Some c →
            d !! KEY_PATH dirname = Some k →
            ensureCerts dirname generate' localIPs' d = Some (d, (c, k))).
  { intros d c k Hc Hk. unfold ensureCerts, existsSync.
    rewrite !bool_decide_eq_true_2 by (by eexists). cbn [andb].
    by rewrite Hc, Hk. }
  unfold ensureCerts at 1, existsSync.
  destruct (bool_decide (is_Some (disk !! CERT_PATH dirname))) eqn:Ec;
    destruct (bool_decide (is_Some (disk !! KEY_PATH dirname))) eqn:Ek; cbn [andb].
  - apply bool_decide_eq_true in Ec as [c Hc], Ek as [k Hk].
    rewrite Hc, Hk. cbn. exists disk, c, k. split_and!; try done. by apply Hagain.
  - eexists _, _, _. split; [reflexivity|].
    assert (∀ x y (d : gmap string string),
              <[KEY_PATH dirname := y]> (<[CERT_PATH dirname := x]> d)
                !! CERT_PATH dirname = Some x) as Hc.
    { intros. rewrite lookup_insert_ne by done. apply lookup_insert_eq. }
    split_and!; [apply Hc|apply lookup_insert_eq| |apply Hagain; [apply Hc|apply lookup_insert_eq]].
    intros p H1 H2. by rewrite !lookup_insert_ne.
  - eexists _, _, _. split; [reflexivity|].
    assert (∀ x y (d : gmap string string),
              <[KEY_PATH dirname := y]> (<[CERT_PATH dirname := x]> d)
                !! CERT_PATH dirname = Some x) as Hc.
    { intros. rewrite lookup_insert_ne by done. apply lookup_insert_eq. }
    split_and!; [apply Hc|apply lookup_insert_eq| |apply Hagain; [apply Hc|apply lookup_insert_eq]].
    intros p H1 H2. by rewrite !lookup_insert_ne.
  - eexists _, _, _. split; [reflexivity|].
    assert (∀ x y (d : gmap string string),
              <[KEY_PATH dirname := y]> (<[CERT_PATH dirname := x]> d)
                !! CERT_PATH dirname = Some x) as Hc.
    { intros. rewrite lookup_insert_ne by done. apply lookup_insert_eq. }
    split_and!; [apply Hc|apply lookup_insert_eq| |apply Hagain; [apply Hc|apply lookup_insert_eq]].
    intros p H1 H2. by rewrite !lookup_insert_ne.
Qed.
